(** * HeatSync: the 24-hour smart-floor heating simulation

    A shallow embedding of [simulate] from [src/d.py] and the properties of
    its hourly loop.

    Number model.  The properties below quantify over real-valued inputs, so
    the floats that depend on the inputs or on the prices (temperatures,
    prices, cost) are embedded as exact rationals in canonical form ([Qc]:
    equal numbers are equal terms, and the arithmetic runs); their rounding
    to a number of decimals is round-half-to-even, computed as numpy does
    ([rint(x * 10^n) / 10^n]) but without binary rounding.  The quantities
    the program keeps as Python integers (storage level, power drawn from
    the storage, power drawn from the grid) are embedded as [Z].  The two
    summary numbers that depend on those integers only ([co2_saved] and
    [trees_equiv]) are computed in binary64 as the program computes them,
    with the primitive floats of the kernel.

    Library model.  numpy's global pseudo-random generator is not part of
    the repository: its state type, [seed] and the unit-interval draw are
    the variables of Section [Engine]. *)

From Stdlib Require Import ZArith QArith Qcanon Qround List Bool Lia Lqa.
From Stdlib Require String.
From Stdlib Require Floats.PrimFloat Floats.SpecFloat Floats.FloatOps.
Import ListNotations.
Import String.StringSyntax.
Import PrimFloat.
Delimit Scope string_scope with string.
Set Warnings "-inexact-float".

Open Scope Qc_scope.

(** ** Python and numpy primitives used by [simulate] *)

Module Py.

(** An integer promoted to a float. *)
Definition of_int (z : Z) : Qc := Q2Qc (inject_Z z).

(** A decimal literal: [lit 3 10] is [0.3]. *)
Definition lit (n : Z) (d : positive) : Qc := Q2Qc (n # d).

(** [x < y] on numbers, as a boolean. *)
Definition ltb (x y : Qc) : bool :=
  match Qccompare x y with
  | Lt => true
  | _ => false
  end.

(** [l[-1]]: the last item; [None] stands for [IndexError]. *)
Fixpoint last_item {A : Type} (l : list A) : option A :=
  match l with
  | [] => None
  | [x] => Some x
  | _ :: tl => last_item tl
  end.

(** [l[:-1]]: every item but the last. *)
Definition but_last {A : Type} (l : list A) : list A := removelast l.

(** [sum(l)] on a list of integers. *)
Definition sum (l : list Z) : Z := fold_left Z.add l 0%Z.

(** Nearest integer, ties to the even one. *)
Definition rint (x : Qc) : Z :=
  let f := Qfloor x in
  match Qccompare (x - of_int f) (lit 1 2) with
  | Lt => f
  | Gt => (f + 1)%Z
  | Eq => if Z.even f then f else (f + 1)%Z
  end.

Definition pow10 (ndigits : nat) : Qc := of_int (10 ^ Z.of_nat ndigits).

(** [round(x, ndigits)] on a float embedded as an exact rational: the
    nearest number with [ndigits] decimals, ties to even. *)
Definition round (x : Qc) (ndigits : nat) : Qc :=
  of_int (rint (x * pow10 ndigits)) / pow10 ndigits.

(** [np.round(a, ndigits)] on a one-dimensional array of exact rationals:
    [rint(x * 10^ndigits) / 10^ndigits] for each element, as numpy computes
    it, the product and the quotient being exact here. *)
Definition np_round (a : list Qc) (ndigits : nat) : list Qc :=
  map (fun x => round x ndigits) a.

(** [a[h] += v] on an array; [None] stands for [IndexError]. *)
Fixpoint add_at (a : list Qc) (h : nat) (v : Qc) : option (list Qc) :=
  match a, h with
  | [], _ => None
  | x :: tl, O => Some (x + v :: tl)
  | x :: tl, S h' =>
      match add_at tl h' v with
      | Some tl' => Some (x :: tl')
      | None => None
      end
  end.

End Py.

(** ** Python floats in binary64 *)

Module F64.

(** An integer promoted to a float, correctly rounded (an integer too
    large for a float gives infinity here where Python raises
    [OverflowError]). *)
Definition of_int (z : Z) : float :=
  FloatOps.SF2Prim
    (SpecFloat.binary_normalize FloatOps.prec FloatOps.emax z 0 false).

(** The integer [z] as an unrounded binary number, with the sign
    [szero] when it is zero. *)
Definition integer (z : Z) (szero : bool) : SpecFloat.spec_float :=
  match z with
  | Z0 => SpecFloat.S754_zero szero
  | Zpos m => SpecFloat.S754_finite false m 0
  | Zneg m => SpecFloat.S754_finite true m 0
  end.

(** The exact value of the finite float with sign [s], mantissa [m] and
    exponent [e]. *)
Definition exact (s : bool) (m : positive) (e : Z) : Qc :=
  Q2Qc (inject_Z (if s then Zneg m else Zpos m) * Qpower (2 # 1) e).

(** [round(x, ndigits)] on a float with [ndigits >= 0]: the exact value
    of [x] is rounded to [ndigits] decimals, ties to even, and the decimal
    number obtained is converted to the nearest float; infinities and NaN
    are returned as they are. *)
Definition round (x : float) (ndigits : nat) : float :=
  match FloatOps.Prim2SF x with
  | SpecFloat.S754_finite s m e =>
      let p := (10 ^ Z.of_nat ndigits)%Z in
      let r := Py.rint (exact s m e * Py.of_int p) in
      FloatOps.SF2Prim
        (SpecFloat.SFdiv FloatOps.prec FloatOps.emax
           (integer r s) (integer p false))
  | _ => x
  end.

End F64.

Notation "x <- c ;; k" :=
  (match c with Some x => k | None => None end)
  (at level 61, c at next level, right associativity).

(** ** The data of [simulate] *)

(** The five columns handed to [pd.DataFrame]. *)
Record DataFrame : Type := mkDataFrame {
  Hour : list nat;
  Temperature : list Qc;
  Grid_Heating : list Z;
  PCM_Use : list Z;
  Price : list Qc
}.

(** [pd.DataFrame({...})] raises [ValueError] unless all columns have one
    length. *)
Definition new_DataFrame
    (hour : list nat) (temperature : list Qc) (grid pcm_use : list Z)
    (price : list Qc) : option DataFrame :=
  let n := length hour in
  if (Nat.eqb (length temperature) n && Nat.eqb (length grid) n
      && Nat.eqb (length pcm_use) n && Nat.eqb (length price) n)%bool
  then Some (mkDataFrame hour temperature grid pcm_use price)
  else None.

(** One row of the frame: the record emitted for an hour. *)
Record HourlyRecord : Type := mkRecord {
  hour : nat;
  temperature : Qc;
  grid_heating_kw : Z;
  pcm_use_kw : Z;
  price : Qc
}.

Definition row (df : DataFrame) (h : nat) : option HourlyRecord :=
  hr <- nth_error (Hour df) h ;;
  t <- nth_error (Temperature df) h ;;
  g <- nth_error (Grid_Heating df) h ;;
  u <- nth_error (PCM_Use df) h ;;
  p <- nth_error (Price df) h ;;
  Some (mkRecord hr t g u p).

(** What [simulate] returns: [df, total_cost, co2_saved, trees_equiv]. *)
Record SimulationResult : Type := mkResult {
  df : DataFrame;
  total_cost : Qc;
  co2_saved_kg : float;
  trees_equivalent : float
}.

(** The variables the loop of [simulate] mutates. *)
Record loop_state : Type := mkLoop {
  temps : list Qc;
  storage : list Z;
  grid : list Z;
  pcm_use : list Z;
  cost : Qc
}.

(** ** The constants of [simulate] *)

Definition room_vol : Z := 50.
Definition power : Z := 2.
Definition pcm_cap : Z := 5.
Definition loss_coeff : Qc := Py.lit 3 10.
Definition dt : Z := 1.
Definition peak_hours : list nat := [7; 8; 17; 18; 19]%nat.

(** ** The loop *)

(** The body of [for hour in range(24)], lines 30 to 49. *)
Definition hour_body (desired_temp outdoor_temp : Qc) (prices : list Qc)
    (st : loop_state) (hour : nat) : option loop_state :=
  t <- Py.last_item (temps st) ;;
  s <- Py.last_item (storage st) ;;
  p <- nth_error prices hour ;;
  let loss :=
    loss_coeff * Py.of_int room_vol * (t - outdoor_temp) / Py.of_int 1000 in
  let '(s, use, heat, grid_heat, cost) :=
    if Py.ltb t desired_temp then
      if (0 <? s)%Z then
        let use := Z.min power s in
        ((s - use)%Z, use, use, 0%Z, cost st)
      else
        let grid_heat := power in
        (s, 0%Z, grid_heat, grid_heat,
         cost st + Py.of_int grid_heat * p * Py.of_int dt)
    else (s, 0%Z, 0%Z, 0%Z, cost st) in
  let new_t := t + (Py.of_int heat - loss) * Py.lit 1 2 in
  Some (mkLoop (temps st ++ [new_t]) (storage st ++ [s])
               (grid st ++ [grid_heat]) (pcm_use st ++ [use]) cost).

(** The state on entry to the loop, lines 26 to 28. *)
Definition loop_init (outdoor_temp : Qc) : loop_state :=
  mkLoop [outdoor_temp] [pcm_cap] [] [] (Py.of_int 0).

(** [for hour in range(n)]: the first [n] iterations of the loop. *)
Definition run_hours (desired_temp outdoor_temp : Qc) (prices : list Qc)
    (n : nat) : option loop_state :=
  fold_left
    (fun acc hour =>
       st <- acc ;; hour_body desired_temp outdoor_temp prices st hour)
    (seq 0 n) (Some (loop_init outdoor_temp)).

(** [for h in [7, 8, 17, 18, 19]: prices[h] += 0.15], line 23. *)
Definition add_surcharge (base : list Qc) : option (list Qc) :=
  fold_left (fun acc h => a <- acc ;; Py.add_at a h (Py.lit 15 100))
            peak_hours (Some base).

(** Lines 50 to 60: the frame and the three summary numbers. *)
Definition summarize (prices : list Qc) (st : loop_state)
    : option SimulationResult :=
  df <- new_DataFrame (seq 0 24) (Py.np_round (Py.but_last (temps st)) 2)
          (grid st) (pcm_use st) (Py.np_round prices 3) ;;
  let total_cost := Py.round (cost st) 2 in
  let co2_saved :=
    F64.round (F64.of_int (Py.sum (pcm_use st)) * 0.233)%float 2 in
  let trees_equiv := F64.round (co2_saved / F64.of_int 21)%float 2 in
  Some (mkResult df total_cost co2_saved trees_equiv).

(** Lines 24 to 60: everything after the prices are made. *)
Definition simulate_prices (prices : list Qc) (desired_temp outdoor_temp : Qc)
    : option SimulationResult :=
  st <- run_hours desired_temp outdoor_temp prices 24 ;;
  summarize prices st.

Section Engine.

(** numpy's global generator: its state, [np.random.seed] and one draw of
    [random_sample]. *)
Variable rng_state : Type.
Variable seed : Z -> rng_state.
Variable random_sample : rng_state -> Qc * rng_state.

(** [np.random.uniform(low, high, n)]: [n] draws, each scaled from the
    unit interval into [low, high), consuming the generator. *)
Fixpoint uniform (low high : Qc) (n : nat) (g : rng_state)
    : list Qc * rng_state :=
  match n with
  | O => ([], g)
  | S n' =>
      let (u, g1) := random_sample g in
      let (rest, g2) := uniform low high n' g1 in
      (low + (high - low) * u :: rest, g2)
  end.

(** [np.random.random_sample(n)]: the next [n] draws of the generator, in
    the order they are drawn. *)
Fixpoint draws (n : nat) (g : rng_state) : list Qc * rng_state :=
  match n with
  | O => ([], g)
  | S n' =>
      let (u, g1) := random_sample g in
      let (rest, g2) := draws n' g1 in
      (u :: rest, g2)
  end.

(** Lines 21 and 22: the base prices, and the generator they leave.  The
    generator state [g] found on entry is overwritten by [seed]. *)
Definition base_prices (g : rng_state) : list Qc * rng_state :=
  let g := seed 0 in
  uniform (Py.lit 15 100) (Py.lit 25 100) 24 g.

(** Lines 21 to 23: the price series. *)
Definition make_prices (g : rng_state) : option (list Qc) * rng_state :=
  let (base, g) := base_prices g in
  (add_surcharge base, g).

(** Lines 21 to 49: the loop variables when the loop ends. *)
Definition simulate_loop (g : rng_state) (desired_temp outdoor_temp : Qc)
    : option loop_state :=
  prices <- fst (make_prices g) ;;
  run_hours desired_temp outdoor_temp prices 24.

(** [simulate(desired_temp, outdoor_temp)] run from generator state [g]:
    the result ([None] for a raised exception) and the generator state
    left behind. *)
Definition simulate (g : rng_state) (desired_temp outdoor_temp : Qc)
    : option SimulationResult * rng_state :=
  let (prices, g) := make_prices g in
  (prices <- prices ;; simulate_prices prices desired_temp outdoor_temp, g).

End Engine.

(** ** A concrete generator, for running the engine

    A linear congruential generator with the interface of Section
    [Engine]; it stands in for numpy's generator in concrete runs. *)

Module Lcg.

Definition modulus : positive := 2147483648.

Definition seed (n : Z) : Z := (n mod Zpos modulus)%Z.

Definition random_sample (g : Z) : Qc * Z :=
  let g' := ((1103515245 * g + 12345) mod Zpos modulus)%Z in
  (Q2Qc (g' # modulus), g').

End Lcg.

(** [simulate()] with the default arguments, on the concrete generator. *)
Definition simulate_default (g : Z) : option SimulationResult * Z :=
  simulate Z Lcg.seed Lcg.random_sample g (Py.of_int 22) (Py.of_int 5).

(** The loop variables [simulate()] ends with, and the prices it makes. *)
Definition simulate_loop_default (g : Z) : option loop_state :=
  simulate_loop Z Lcg.seed Lcg.random_sample g (Py.of_int 22) (Py.of_int 5).

Definition make_prices_default (g : Z) : option (list Qc) * Z :=
  make_prices Z Lcg.seed Lcg.random_sample g.

(** ** The loop seen one hour at a time

    The three scalars an iteration reads ([temps[-1]], [storage[-1]],
    [cost]) and what one iteration makes of them.  These follow the
    branches of [hour_body]; [run_hours_trace] below shows that the lists
    the loop builds are exactly the successive values of these scalars. *)

Record hour_state : Type := mkHour {
  h_temp : Qc;
  h_storage : Z;
  h_cost : Qc
}.

Definition heat_loss (outdoor_temp t : Qc) : Qc :=
  loss_coeff * Py.of_int room_vol * (t - outdoor_temp) / Py.of_int 1000.

(** Power taken from the storage in an hour entered in state [x]. *)
Definition hour_use (desired_temp : Qc) (x : hour_state) : Z :=
  if Py.ltb (h_temp x) desired_temp then
    if (0 <? h_storage x)%Z then Z.min power (h_storage x) else 0%Z
  else 0%Z.

(** Power taken from the grid in an hour entered in state [x]. *)
Definition hour_grid (desired_temp : Qc) (x : hour_state) : Z :=
  if Py.ltb (h_temp x) desired_temp then
    if (0 <? h_storage x)%Z then 0%Z else power
  else 0%Z.

(** The state an hour entered in state [x] at price [p] leaves. *)
Definition hour_next (desired_temp outdoor_temp p : Qc) (x : hour_state)
    : hour_state :=
  let use := hour_use desired_temp x in
  let grid_heat := hour_grid desired_temp x in
  let heat := (use + grid_heat)%Z in
  mkHour
    (h_temp x
     + (Py.of_int heat - heat_loss outdoor_temp (h_temp x)) * Py.lit 1 2)
    (h_storage x - use)
    (if (Py.ltb (h_temp x) desired_temp && negb (0 <? h_storage x)%Z)%bool
     then h_cost x + Py.of_int grid_heat * p * Py.of_int dt
     else h_cost x).

(** The state on entry to hour [n]. *)
Fixpoint state_at (desired_temp outdoor_temp : Qc) (prices : list Qc)
    (n : nat) : hour_state :=
  match n with
  | O => mkHour outdoor_temp pcm_cap (Py.of_int 0)
  | S k =>
      hour_next desired_temp outdoor_temp (nth k prices (Py.of_int 0))
        (state_at desired_temp outdoor_temp prices k)
  end.

(** The loop variables after [n] iterations, written with [state_at]. *)
Definition loop_after (desired_temp outdoor_temp : Qc) (prices : list Qc)
    (n : nat) : loop_state :=
  let x := state_at desired_temp outdoor_temp prices in
  mkLoop (map (fun k => h_temp (x k)) (seq 0 (S n)))
         (map (fun k => h_storage (x k)) (seq 0 (S n)))
         (map (fun k => hour_grid desired_temp (x k)) (seq 0 n))
         (map (fun k => hour_use desired_temp (x k)) (seq 0 n))
         (h_cost (x n)).

(** ** The hourly transition as the specification words it

    [hour_transition desired outdoor price (t, s, c) (t', s', c') use grid]:
    an hour entered with temperature [t], storage [s] and accumulated cost
    [c] is left with [t'], [s'], [c'], having drawn [use] from the storage
    and [grid] from the grid. *)


(** ** The price series as the specification words it

    The base price of hour [h] with the surcharge of 0.15 added exactly at
    the peak hours 7, 8, 17, 18 and 19. *)

Definition is_peak (h : nat) : bool := existsb (Nat.eqb h) peak_hours.

Definition surcharged (h : nat) (b : Qc) : Qc :=
  if is_peak h then b + Py.lit 15 100 else b.

Definition with_surcharge (base : list Qc) : list Qc :=
  map (fun hb => surcharged (fst hb) (snd hb))
      (combine (seq 0 (length base)) base).

(** ** Sums over the hours *)

(** [f 0 + ... + f (n - 1)]. *)
Fixpoint sum_upto (f : nat -> Qc) (n : nat) : Qc :=
  match n with
  | O => Py.of_int 0
  | S k => sum_upto f k + f k
  end.

(** The energy bought from the grid over the first [n] hours, priced hour
    by hour: the sum of [grid[h] * prices[h]]. *)
Definition grid_energy_cost (grid : list Z) (prices : list Qc) (n : nat)
    : Qc :=
  sum_upto
    (fun h => Py.of_int (nth h grid 0%Z) * nth h prices (Py.of_int 0)) n.

(** The entries of a column that are not zero, in their order. *)
Definition nonzero (l : list Z) : list Z :=
  filter (fun z => negb (z =? 0)%Z) l.

(** ** The routes that serve the simulation *)

(** A number as it sits in a frame column or in a JSON payload: an
    integer, a float embedded as an exact rational, or a binary64 float. *)
Inductive number : Type :=
| Int (z : Z)
| Float (q : Qc)
| Float64 (x : float).

(** A value of the JSON payload: an array or a scalar. *)
Inductive json_value : Type :=
| Column (l : list number)
| Scalar (x : number).

(** A Python [dict] with string keys, in insertion order. *)
Definition dict (V : Type) : Type := list (String.string * V).

(** [d[k] = v]: replaces the value of an existing key in place, appends
    a new key. *)
Fixpoint dict_set {V : Type} (k : String.string) (v : V) (d : dict V)
    : dict V :=
  match d with
  | [] => [(k, v)]
  | (k', v') :: tl =>
      if String.eqb k k' then (k, v) :: tl else (k', v') :: dict_set k v tl
  end.

(** [d.update(other)]. *)
Definition dict_update {V : Type} (d other : dict V) : dict V :=
  fold_left (fun acc kv => dict_set (fst kv) (snd kv) acc) other d.

(** [d.get(k)]. *)
Fixpoint dict_get {V : Type} (k : String.string) (d : dict V) : option V :=
  match d with
  | [] => None
  | (k', v) :: tl => if String.eqb k k' then Some v else dict_get k tl
  end.

(** The frame of lines 50 to 56 as named columns in their order: what
    [df.to_dict(orient='list')] returns. *)
Definition to_dict (df : DataFrame) : dict (list number) :=
  [("Hour"%string, map (fun h => Int (Z.of_nat h)) (Hour df));
   ("Temperature (C)"%string, map Float (Temperature df));
   ("Grid Heating (kW)"%string, map Int (Grid_Heating df));
   ("PCM Use (kW)"%string, map Int (PCM_Use df));
   ("Price (EUR per kWh)"%string, map Float (Price df))].

(** [df[name] = x] for a scalar [x] on a frame of [nrows] rows: a column
    holding [x] in every row. *)
Definition assign_scalar (name : String.string) (x : number) (nrows : nat)
    (cols : dict (list number)) : dict (list number) :=
  dict_set name (repeat x nrows) cols.

(** Row [h] of a frame of named columns: one cell per column, [None] past
    the end of a column. *)
Definition frame_row (cols : dict (list number)) (h : nat)
    : list (option number) :=
  map (fun c => nth_error (snd c) h) cols.

Section Routes.

Variable rng_state : Type.
Variable seed : Z -> rng_state.
Variable random_sample : rng_state -> Qc * rng_state.

(** [simulate()]: the call with both arguments defaulted. *)
Definition simulate_defaults (g : rng_state)
    : option SimulationResult * rng_state :=
  simulate rng_state seed random_sample g (Py.of_int 22) (Py.of_int 5).

(** [data_json], lines 77 to 81: the payload handed to [jsonify], and the
    generator state the request leaves. *)
Definition data_json (g : rng_state)
    : option (dict json_value) * rng_state :=
  let (res, g) := simulate_defaults g in
  (r <- res ;;
   let payload :=
     map (fun kv => (fst kv, Column (snd kv))) (to_dict (df r)) in
   Some (dict_update payload
           [("Total Cost (EUR)"%string, Scalar (Float (total_cost r)));
            ("CO2 Saved (kg)"%string, Scalar (Float64 (co2_saved_kg r)));
            ("Trees Equivalent"%string,
             Scalar (Float64 (trees_equivalent r)))]),
   g).

(** [data_csv], lines 85 to 88: the frame handed to [to_csv], and the
    generator state the request leaves. *)
Definition data_csv (g : rng_state)
    : option (dict (list number)) * rng_state :=
  let (res, g) := simulate_defaults g in
  (r <- res ;;
   let nrows := length (Hour (df r)) in
   let cols := to_dict (df r) in
   let cols :=
     assign_scalar "Total Cost (EUR)"%string (Float (total_cost r)) nrows
       cols in
   let cols :=
     assign_scalar "CO2 Saved (kg)"%string (Float64 (co2_saved_kg r)) nrows
       cols in
   let cols :=
     assign_scalar "Trees Equivalent"%string (Float64 (trees_equivalent r))
       nrows cols in
   Some cols,
   g).

End Routes.

(** ** Basic facts about the primitives *)

(** Turns a goal on canonical rationals into one on plain rationals. *)
Ltac qc2q :=
  unfold Qcle, Qclt, Qcminus, Qcdiv, Qcplus, Qcmult, Qcopp, Qcinv,
    Py.lit, Py.of_int in *;
  try apply Qc_is_canon;
  cbn [this Q2Qc] in *;
  repeat rewrite Qred_correct in *;
  repeat match goal with
  | |- context [inject_Z (Zpos ?p)] =>
      change (inject_Z (Zpos p)) with (Zpos p # 1)%Q
  | |- context [inject_Z Z0] => change (inject_Z Z0) with (0 # 1)%Q
  | |- context [Qinv (Zpos ?p # ?q)] =>
      change (Qinv (Zpos p # q)) with (Zpos q # p)%Q
  | H : context [inject_Z (Zpos ?p)] |- _ =>
      change (inject_Z (Zpos p)) with (Zpos p # 1)%Q in H
  | H : context [inject_Z Z0] |- _ =>
      change (inject_Z Z0) with (0 # 1)%Q in H
  | H : context [Qinv (Zpos ?p # ?q)] |- _ =>
      change (Qinv (Zpos p # q)) with (Zpos q # p)%Q in H
  end.

Lemma ltb_lt (x y : Qc) : Py.ltb x y = true <-> x < y.
Proof.
  unfold Py.ltb. rewrite Qclt_alt.
  destruct (Qccompare x y); split; congruence.
Qed.

Lemma ltb_ge (x y : Qc) : Py.ltb x y = false <-> y <= x.
Proof.
  split; intros H.
  - apply Qcnot_lt_le. intros L. apply ltb_lt in L. congruence.
  - destruct (Py.ltb x y) eqn:E; [|reflexivity].
    apply ltb_lt in E. apply Qcle_not_lt in H. contradiction.
Qed.

Lemma last_item_app {A : Type} (l : list A) (x : A) :
  Py.last_item (l ++ [x]) = Some x.
Proof.
  induction l as [|a l IH]; [reflexivity|].
  cbn [app Py.last_item]. rewrite IH.
  destruct (l ++ [x]) eqn:E; [|reflexivity].
  destruct l; discriminate.
Qed.

Lemma last_item_map_seq {A : Type} (f : nat -> A) (n : nat) :
  Py.last_item (map f (seq 0 (S n))) = Some (f n).
Proof. rewrite seq_S, map_app. apply last_item_app. Qed.

Lemma map_seq_S {A : Type} (f : nat -> A) (n : nat) :
  map f (seq 0 (S n)) = map f (seq 0 n) ++ [f n].
Proof. rewrite seq_S, map_app. reflexivity. Qed.

Lemma nth_error_map_seq {A : Type} (f : nat -> A) (n h : nat) :
  (h < n)%nat -> nth_error (map f (seq 0 n)) h = Some (f h).
Proof.
  intros H. rewrite nth_error_map, nth_error_seq.
  destruct (Nat.ltb_spec h n); [reflexivity|lia].
Qed.

Lemma but_last_map_seq {A : Type} (f : nat -> A) (n : nat) :
  Py.but_last (map f (seq 0 (S n))) = map f (seq 0 n).
Proof. unfold Py.but_last. rewrite map_seq_S. apply removelast_last. Qed.

(** ** The loop builds the successive hourly states *)

Lemma run_hours_S (d o : Qc) (prices : list Qc) (n : nat) :
  run_hours d o prices (S n) =
  (st <- run_hours d o prices n ;; hour_body d o prices st n).
Proof. unfold run_hours. rewrite seq_S, fold_left_app. reflexivity. Qed.

Lemma hour_body_scalar (d o : Qc) (prices : list Qc) (st : loop_state)
    (h : nat) (t : Qc) (s : Z) (p : Qc) :
  Py.last_item (temps st) = Some t ->
  Py.last_item (storage st) = Some s ->
  nth_error prices h = Some p ->
  let x := mkHour t s (cost st) in
  let x' := hour_next d o p x in
  hour_body d o prices st h =
  Some (mkLoop (temps st ++ [h_temp x']) (storage st ++ [h_storage x'])
               (grid st ++ [hour_grid d x]) (pcm_use st ++ [hour_use d x])
               (h_cost x')).
Proof.
  intros Ht Hs Hp. unfold hour_body. rewrite Ht, Hs, Hp.
  unfold hour_next, hour_use, hour_grid, heat_loss. cbn [h_temp h_storage h_cost].
  destruct (Py.ltb t d); [destruct (0 <? s)%Z|]; cbn [andb negb];
    rewrite ?Z.add_0_r, ?Z.add_0_l, ?Z.sub_0_r; reflexivity.
Qed.

Lemma run_hours_trace (d o : Qc) (prices : list Qc) (n : nat) :
  (n <= length prices)%nat ->
  run_hours d o prices n = Some (loop_after d o prices n).
Proof.
  induction n as [|n IH]; intros Hn; [reflexivity|].
  rewrite run_hours_S, IH by lia.
  destruct (nth_error prices n) as [p|] eqn:Hp;
    [|apply nth_error_None in Hp; lia].
  set (x := state_at d o prices).
  assert (Ht : Py.last_item (temps (loop_after d o prices n))
               = Some (h_temp (x n)))
    by apply (last_item_map_seq (fun k => h_temp (x k))).
  assert (Hs : Py.last_item (storage (loop_after d o prices n))
               = Some (h_storage (x n)))
    by apply (last_item_map_seq (fun k => h_storage (x k))).
  rewrite (hour_body_scalar d o prices _ n _ _ p Ht Hs Hp).
  assert (E : mkHour (h_temp (x n)) (h_storage (x n))
                (cost (loop_after d o prices n)) = x n)
    by (unfold loop_after; cbn [cost]; fold x; destruct (x n); reflexivity).
  rewrite E.
  assert (X : hour_next d o p (x n) = x (S n)).
  { unfold x. cbn [state_at].
    rewrite (nth_error_nth _ _ (Py.of_int 0) Hp). reflexivity. }
  rewrite X. unfold loop_after. fold x. cbn [temps storage grid pcm_use cost].
  rewrite (map_seq_S (fun k => h_temp (x k)) (S n)),
    (map_seq_S (fun k => h_storage (x k)) (S n)),
    (map_seq_S (fun k => hour_grid d (x k)) n),
    (map_seq_S (fun k => hour_use d (x k)) n).
  reflexivity.
Qed.

(** ** Facts about one hour *)

Lemma hour_use_cases (d : Qc) (x : hour_state) :
  (h_temp x < d /\ (0 < h_storage x)%Z /\
   hour_use d x = Z.min 2 (h_storage x) /\ hour_grid d x = 0%Z) \/
  (h_temp x < d /\ (h_storage x <= 0)%Z /\
   hour_use d x = 0%Z /\ hour_grid d x = 2%Z) \/
  (d <= h_temp x /\ hour_use d x = 0%Z /\ hour_grid d x = 0%Z).
Proof.
  unfold hour_use, hour_grid, power.
  destruct (Py.ltb (h_temp x) d) eqn:E.
  - apply ltb_lt in E. destruct (Z.ltb_spec 0 (h_storage x)).
    + left. auto.
    + right. left. auto.
  - apply ltb_ge in E. right. right. auto.
Qed.

Lemma hour_use_range (d : Qc) (x : hour_state) :
  (0 <= h_storage x)%Z ->
  (0 <= hour_use d x <= 2)%Z /\ (hour_use d x <= h_storage x)%Z.
Proof.
  intros Hs.
  destruct (hour_use_cases d x) as [(_ & H & -> & _)|[(_ & _ & -> & _)|(_ & -> & _)]];
    lia.
Qed.

Lemma hour_next_storage (d o p : Qc) (x : hour_state) :
  h_storage (hour_next d o p x) = (h_storage x - hour_use d x)%Z.
Proof. reflexivity. Qed.

Section Hours.

Variables (d o : Qc) (prices : list Qc).

Let x := state_at d o prices.

Lemma state_at_S (n : nat) :
  x (S n) = hour_next d o (nth n prices (Py.of_int 0)) (x n).
Proof. reflexivity. Qed.

Lemma storage_range (n : nat) : (0 <= h_storage (x n) <= 5)%Z.
Proof.
  induction n as [|n IH]; [cbn; unfold pcm_cap; lia|].
  rewrite state_at_S, hour_next_storage.
  pose proof (hour_use_range d (x n) (proj1 IH)). lia.
Qed.

Lemma storage_step (n : nat) :
  h_storage (x (S n)) = h_storage (x n) \/
  h_storage (x (S n)) = (h_storage (x n) - Z.min 2 (h_storage (x n)))%Z.
Proof.
  rewrite state_at_S, hour_next_storage.
  destruct (hour_use_cases d (x n)) as [(_ & _ & -> & _)|[(_ & _ & -> & _)|(_ & -> & _)]];
    [right; reflexivity|left; lia|left; lia].
Qed.

Lemma storage_stays_empty (n m : nat) :
  (n <= m)%nat -> h_storage (x n) = 0%Z -> h_storage (x m) = 0%Z.
Proof.
  intros Hnm H0. induction Hnm as [|m Hnm IH]; [exact H0|].
  rewrite state_at_S, hour_next_storage.
  pose proof (hour_use_range d (x m) ltac:(lia)). lia.
Qed.

Lemma temp_above_outdoor (n : nat) : o <= h_temp (x n).
Proof.
  induction n as [|n IH]; [cbn; apply Qcle_refl|].
  rewrite state_at_S. unfold hour_next, heat_loss, loss_coeff, room_vol.
  cbn [h_temp].
  assert (Hh : (0 <= hour_use d (x n) + hour_grid d (x n))%Z).
  { pose proof (storage_range n) as Hs.
    destruct (hour_use_cases d (x n))
      as [(_ & _ & -> & ->)|[(_ & _ & -> & ->)|(_ & -> & ->)]]; lia. }
  set (heat := (hour_use d (x n) + hour_grid d (x n))%Z) in *.
  set (t := h_temp (x n)) in *. clearbody heat t.
  assert (Hq : (0 <= inject_Z heat)%Q)
    by (change 0%Q with (inject_Z 0); rewrite <- Zle_Qle; exact Hh).
  qc2q. lra.
Qed.


End Hours.

(** ** Rounding *)

Lemma of_int_nonneg (z : Z) : (0 <= z)%Z -> Py.of_int 0 <= Py.of_int z.
Proof.
  intros H. unfold Py.of_int, Qcle. cbn [this Q2Qc].
  rewrite !Qred_correct. rewrite <- Zle_Qle. exact H.
Qed.

Lemma rint_nonneg (x : Qc) : Py.of_int 0 <= x -> (0 <= Py.rint x)%Z.
Proof.
  intros H. unfold Py.rint.
  assert (F : (0 <= Qfloor x)%Z).
  { change 0%Z with (Qfloor 0). apply Qfloor_resp_le. exact H. }
  destruct (Qccompare _ _); [destruct (Z.even _)| |]; lia.
Qed.

Lemma rint_zero : Py.rint (Py.of_int 0) = 0%Z.
Proof. reflexivity. Qed.

Lemma pow10_pos (nd : nat) : Py.of_int 0 < Py.pow10 nd.
Proof.
  unfold Py.pow10, Py.of_int, Qclt. cbn [this Q2Qc].
  rewrite !Qred_correct. rewrite <- Zlt_Qlt.
  apply Z.pow_pos_nonneg; lia.
Qed.

Lemma round_nonneg (x : Qc) (nd : nat) :
  Py.of_int 0 <= x -> Py.of_int 0 <= Py.round x nd.
Proof.
  intros H. unfold Py.round.
  pose proof (pow10_pos nd) as P.
  assert (R : Py.of_int 0 <= Py.of_int (Py.rint (x * Py.pow10 nd))).
  { apply of_int_nonneg, rint_nonneg.
    change (Py.of_int 0) with 0 in *.
    replace 0 with (0 * Py.pow10 nd) by ring.
    apply Qcmult_le_compat_r; [exact H|apply Qclt_le_weak; exact P]. }
  set (r := Py.of_int (Py.rint (x * Py.pow10 nd))) in *.
  set (q := Py.pow10 nd) in *. clearbody r q.
  change (Py.of_int 0) with 0 in *.
  unfold Qcdiv.
  replace 0 with (0 * / q) by ring.
  apply Qcmult_le_compat_r; [exact R|].
  apply Qclt_le_weak.
  unfold Qclt, Qcinv in *. cbn [this Q2Qc] in *.
  rewrite !Qred_correct in *.
  apply Qinv_lt_0_compat. exact P.
Qed.

Lemma round_zero (nd : nat) : Py.round (Py.of_int 0) nd = Py.of_int 0.
Proof.
  unfold Py.round. change (Py.of_int 0) with 0.
  replace (0 * Py.pow10 nd) with 0 by ring.
  change 0 with (Py.of_int 0) at 1. rewrite rint_zero.
  change (Py.of_int 0) with 0. unfold Qcdiv. ring.
Qed.

(** ** Cost and demand *)

Section Cost.

Variables (d o : Qc) (prices : list Qc).

Let x := state_at d o prices.

Lemma cost_nonneg (n : nat) :
  (forall p, In p prices -> Py.of_int 0 <= p) ->
  Py.of_int 0 <= h_cost (x n).
Proof.
  intros Hp. induction n as [|n IH]; [cbn; apply Qcle_refl|].
  unfold x in *. cbn [state_at]. unfold hour_next. cbn [h_cost].
  destruct (_ && _)%bool; [|exact IH].
  assert (P : Py.of_int 0 <= nth n prices (Py.of_int 0)).
  { destruct (nth_in_or_default n prices (Py.of_int 0)) as [I|E];
      [apply Hp; exact I|rewrite E; apply Qcle_refl]. }
  assert (G : (0 <= hour_grid d (state_at d o prices n))%Z).
  { destruct (hour_use_cases d (state_at d o prices n))
      as [(_ & _ & _ & ->)|[(_ & _ & _ & ->)|(_ & _ & ->)]]; lia. }
  apply of_int_nonneg in G.
  set (c := h_cost _) in *. set (p := nth _ _ _) in *.
  set (g := Py.of_int (hour_grid _ _)) in *. clearbody c p g.
  change (Py.of_int 0) with 0 in *. unfold dt.
  replace (c + g * p * Py.of_int 1) with (c + g * p) by (qc2q; ring).
  rewrite <- (Qcplus_0_l 0).
  apply Qcplus_le_compat; [exact IH|].
  replace 0 with (0 * p) by ring.
  apply Qcmult_le_compat_r; assumption.
Qed.

Lemma no_demand (n : nat) :
  d <= o ->
  h_temp (x n) = o /\ h_storage (x n) = pcm_cap /\
  h_cost (x n) = Py.of_int 0 /\
  hour_use d (x n) = 0%Z /\ hour_grid d (x n) = 0%Z.
Proof.
  intros Hd.
  assert (I : h_temp (x n) = o /\ h_storage (x n) = pcm_cap /\
              h_cost (x n) = Py.of_int 0).
  { induction n as [|n (Ht & Hs & Hc)]; [cbn; auto|].
    unfold x in *. cbn [state_at].
    unfold hour_next, hour_use, hour_grid, heat_loss, loss_coeff, room_vol.
    cbn [h_temp h_storage h_cost]. rewrite Ht, Hs, Hc.
    apply ltb_ge in Hd. rewrite Hd. cbn [andb Z.add].
    split; [|split; [lia|reflexivity]].
    set (t := o). clearbody t. qc2q. lra. }
  destruct I as (Ht & Hs & Hc). repeat split; try assumption.
  - unfold hour_use. rewrite Ht. apply ltb_ge in Hd. rewrite Hd. reflexivity.
  - unfold hour_grid. rewrite Ht. apply ltb_ge in Hd. rewrite Hd. reflexivity.
Qed.

End Cost.

(** ** The frame and the summary *)

Lemma simulate_prices_result (d o : Qc) (prices : list Qc) :
  length prices = 24%nat ->
  let x := state_at d o prices in
  let uses := map (fun k => hour_use d (x k)) (seq 0 24) in
  let co2 := F64.round (F64.of_int (Py.sum uses) * 0.233)%float 2 in
  simulate_prices prices d o =
  Some (mkResult
          (mkDataFrame (seq 0 24)
             (map (fun k => Py.round (h_temp (x k)) 2) (seq 0 24))
             (map (fun k => hour_grid d (x k)) (seq 0 24))
             uses
             (Py.np_round prices 3))
          (Py.round (h_cost (x 24%nat)) 2)
          co2
          (F64.round (co2 / F64.of_int 21)%float 2)).
Proof.
  intros L x uses co2. unfold simulate_prices.
  rewrite run_hours_trace by lia.
  unfold summarize, loop_after. fold x.
  cbn [temps storage grid pcm_use cost].
  rewrite (but_last_map_seq (fun k => h_temp (x k)) 24).
  unfold new_DataFrame, Py.np_round.
  rewrite !length_map, !length_seq, L. 
  cbn [Nat.eqb andb].
  rewrite map_map.
  reflexivity.
Qed.

Lemma Some_inj {A : Type} (a b : A) : Some a = Some b -> a = b.
Proof. intros H. inversion H. reflexivity. Qed.

Lemma result_row (d o : Qc) (prices : list Qc) (r : SimulationResult)
    (h : nat) (p : Qc) :
  length prices = 24%nat ->
  simulate_prices prices d o = Some r ->
  (h < 24)%nat ->
  nth_error prices h = Some p ->
  let x := state_at d o prices in
  row (df r) h =
  Some (mkRecord h (Py.round (h_temp (x h)) 2) (hour_grid d (x h))
          (hour_use d (x h)) (Py.round p 3)).
Proof.
  intros L R Hh Hp x.
  rewrite (simulate_prices_result d o prices L) in R.
  apply Some_inj in R. subst r.
  unfold row. 
  cbn [df Hour Temperature Grid_Heating PCM_Use Price]. fold x.
  rewrite (nth_error_map_seq (fun k => Py.round (h_temp (x k)) 2) 24 h Hh),
    (nth_error_map_seq (fun k => hour_grid d (x k)) 24 h Hh),
    (nth_error_map_seq (fun k => hour_use d (x k)) 24 h Hh).
  unfold Py.np_round. rewrite nth_error_map, Hp. cbn [option_map].
  rewrite nth_error_seq. 
  destruct (Nat.ltb_spec h 24); [reflexivity|lia].
Qed.

(** ** The price series *)

Lemma add_surcharge_24 (base : list Qc) :
  length base = 24%nat -> add_surcharge base = Some (with_surcharge base).
Proof.
  intros L.
  do 24 (destruct base as [|? base]; [discriminate L|]).
  destruct base; [reflexivity|discriminate L].
Qed.

Lemma with_surcharge_length (base : list Qc) :
  length (with_surcharge base) = length base.
Proof.
  unfold with_surcharge.
  rewrite length_map, length_combine, length_seq. apply Nat.min_id.
Qed.

Lemma nth_error_combine_seq {A : Type} (l : list A) (k h : nat) (b : A) :
  nth_error l h = Some b ->
  nth_error (combine (seq k (length l)) l) h = Some ((k + h)%nat, b).
Proof.
  revert k h. induction l as [|a l IH]; intros k h Hb;
    [destruct h; discriminate|].
  destruct h as [|h]; cbn [length seq combine nth_error] in *.
  - apply Some_inj in Hb. subst a. rewrite Nat.add_0_r. reflexivity.
  - rewrite (IH (S k) h Hb). f_equal. f_equal. lia.
Qed.

Lemma with_surcharge_nth (base : list Qc) (h : nat) (b : Qc) :
  nth_error base h = Some b ->
  nth_error (with_surcharge base) h = Some (surcharged h b).
Proof.
  intros Hb. unfold with_surcharge.
  rewrite nth_error_map, (nth_error_combine_seq base 0 h b Hb).
  reflexivity.
Qed.

Section Prices.

Variable rng_state : Type.
Variable seed : Z -> rng_state.
Variable random_sample : rng_state -> Qc * rng_state.

Lemma uniform_length (low high : Qc) (n : nat) (g : rng_state) :
  length (fst (uniform rng_state random_sample low high n g)) = n.
Proof.
  revert g. induction n as [|n IH]; intros g; [reflexivity|].
  cbn [uniform]. destruct (random_sample g) as [u g1].
  specialize (IH g1).
  destruct (uniform rng_state random_sample low high n g1) as [rest g2].
  cbn [fst length] in *. congruence.
Qed.

Lemma uniform_draws (low high : Qc) (n : nat) (g : rng_state) :
  uniform rng_state random_sample low high n g =
  (map (fun u => low + (high - low) * u)
       (fst (draws rng_state random_sample n g)),
   snd (draws rng_state random_sample n g)).
Proof.
  revert g. induction n as [|n IH]; intros g; [reflexivity|].
  cbn [uniform draws]. destruct (random_sample g) as [u g1].
  rewrite (IH g1).
  destruct (draws rng_state random_sample n g1) as [rest g2].
  reflexivity.
Qed.

Lemma draws_length (n : nat) (g : rng_state) :
  length (fst (draws rng_state random_sample n g)) = n.
Proof.
  revert g. induction n as [|n IH]; intros g; [reflexivity|].
  cbn [draws]. destruct (random_sample g) as [u g1].
  specialize (IH g1).
  destruct (draws rng_state random_sample n g1) as [rest g2].
  cbn [fst length] in *. congruence.
Qed.

Lemma base_prices_length (g : rng_state) :
  length (fst (base_prices rng_state seed random_sample g)) = 24%nat.
Proof. apply uniform_length. Qed.

Lemma make_prices_eq (g : rng_state) :
  fst (make_prices rng_state seed random_sample g) =
  Some (with_surcharge (fst (base_prices rng_state seed random_sample g))).
Proof.
  unfold make_prices.
  pose proof (base_prices_length g) as L.
  destruct (base_prices rng_state seed random_sample g) as [base g'].
  cbn [fst] in *. apply add_surcharge_24. exact L.
Qed.

Lemma simulate_eq (g : rng_state) (d o : Qc) :
  fst (simulate rng_state seed random_sample g d o) =
  simulate_prices
    (with_surcharge (fst (base_prices rng_state seed random_sample g))) d o.
Proof.
  unfold simulate. pose proof (make_prices_eq g) as E.
  destruct (make_prices rng_state seed random_sample g) as [prices g'].
  cbn [fst] in *. rewrite E. reflexivity.
Qed.

Lemma simulate_loop_eq (g : rng_state) (d o : Qc) :
  simulate_loop rng_state seed random_sample g d o =
  run_hours d o
    (with_surcharge (fst (base_prices rng_state seed random_sample g))) 24.
Proof. unfold simulate_loop. rewrite make_prices_eq. reflexivity. Qed.

Hypothesis random_sample_unit :
  forall g, Py.of_int 0 <= fst (random_sample g) /\
            fst (random_sample g) < Py.of_int 1.

Lemma draws_range (n : nat) (g : rng_state) (u : Qc) :
  In u (fst (draws rng_state random_sample n g)) ->
  Py.of_int 0 <= u /\ u < Py.of_int 1.
Proof.
  revert g. induction n as [|n IH]; intros g; [intros []|].
  cbn [draws]. pose proof (random_sample_unit g) as U.
  destruct (random_sample g) as [u0 g1]. specialize (IH g1).
  destruct (draws rng_state random_sample n g1) as [rest g2].
  cbn [fst In] in *. intros [<-|I]; [exact U|apply IH; exact I].
Qed.

Lemma uniform_range (n : nat) (g : rng_state) (b : Qc) :
  In b (fst (uniform rng_state random_sample (Py.lit 15 100) (Py.lit 25 100)
               n g)) ->
  Py.lit 15 100 <= b /\ b < Py.lit 25 100.
Proof.
  revert g. induction n as [|n IH]; intros g; [intros []|].
  cbn [uniform]. pose proof (random_sample_unit g) as U.
  destruct (random_sample g) as [u g1]. specialize (IH g1).
  destruct (uniform rng_state random_sample _ _ n g1) as [rest g2].
  cbn [fst In] in *. intros [<-|I]; [|apply IH; exact I].
  destruct U as [U0 U1]. clear IH. split; qc2q; lra.
Qed.

Lemma base_prices_range (g : rng_state) (b : Qc) :
  In b (fst (base_prices rng_state seed random_sample g)) ->
  Py.lit 15 100 <= b /\ b < Py.lit 25 100.
Proof. apply uniform_range. Qed.

Lemma surcharged_range (h : nat) (b : Qc) :
  Py.lit 15 100 <= b /\ b < Py.lit 25 100 ->
  Py.lit 15 100 <= surcharged h b /\ surcharged h b <= Py.lit 40 100.
Proof.
  intros [B0 B1]. unfold surcharged.
  destruct (is_peak h); split; qc2q; lra.
Qed.

Lemma prices_range (g : rng_state) (p : Qc) :
  In p (with_surcharge (fst (base_prices rng_state seed random_sample g))) ->
  Py.lit 15 100 <= p /\ p <= Py.lit 40 100.
Proof.
  intros I. apply In_nth_error in I. destruct I as [h Hh].
  set (base := fst (base_prices rng_state seed random_sample g)) in *.
  assert (L : (h < length base)%nat).
  { rewrite <- with_surcharge_length. apply nth_error_Some. congruence. }
  destruct (nth_error base h) as [b|] eqn:Hb;
    [|apply nth_error_None in Hb; lia].
  rewrite (with_surcharge_nth base h b Hb) in Hh.
  apply Some_inj in Hh. subst p.
  apply surcharged_range, (base_prices_range g).
  apply (nth_error_In _ _ Hb).
Qed.

End Prices.

(** ** The concrete generator draws from the unit interval *)

Lemma lcg_sample_unit (g : Z) :
  Py.of_int 0 <= fst (Lcg.random_sample g) /\
  fst (Lcg.random_sample g) < Py.of_int 1.
Proof.
  unfold Lcg.random_sample. cbn [fst].
  set (m := ((1103515245 * g + 12345) mod Zpos Lcg.modulus)%Z).
  assert (B : (0 <= m < Zpos Lcg.modulus)%Z)
    by (apply Z.mod_pos_bound; reflexivity).
  unfold Qcle, Qclt, Py.of_int. cbn [this Q2Qc]. rewrite !Qred_correct.
  unfold Qle, Qlt. cbn [Qnum Qden inject_Z]. lia.
Qed.

(** ** The engine, end to end *)

Section Run.

Variable rng_state : Type.
Variable seed : Z -> rng_state.
Variable random_sample : rng_state -> Qc * rng_state.

Local Abbreviation make_prices := (make_prices rng_state seed random_sample).
Local Abbreviation base_prices := (base_prices rng_state seed random_sample).
Local Abbreviation simulate_loop :=
  (simulate_loop rng_state seed random_sample).
Local Abbreviation simulate := (simulate rng_state seed random_sample).

(** The prices the engine makes, the loop variables it ends with and the
    result it returns, in terms of the hourly states. *)
Lemma engine_run (g : rng_state) (d o : Qc) :
  let prices := with_surcharge (fst (base_prices g)) in
  length prices = 24%nat /\
  fst (make_prices g) = Some prices /\
  simulate_loop g d o = Some (loop_after d o prices 24) /\
  fst (simulate g d o) = simulate_prices prices d o.
Proof.
  intros prices.
  assert (L : length prices = 24%nat).
  { unfold prices. rewrite with_surcharge_length. apply base_prices_length. }
  pose proof (make_prices_eq rng_state seed random_sample g) as E.
  fold prices in E. repeat split; try assumption.
  - rewrite simulate_loop_eq. apply run_hours_trace. fold prices. lia.
  - apply simulate_eq.
Qed.

Lemma loop_after_temps (d o : Qc) (prices : list Qc) (n h : nat) :
  (h <= n)%nat ->
  nth_error (temps (loop_after d o prices n)) h
  = Some (h_temp (state_at d o prices h)).
Proof.
  intros H. unfold loop_after. cbn [temps].
  apply (nth_error_map_seq (fun k => h_temp (state_at d o prices k))). lia.
Qed.

Lemma loop_after_storage (d o : Qc) (prices : list Qc) (n h : nat) :
  (h <= n)%nat ->
  nth_error (storage (loop_after d o prices n)) h
  = Some (h_storage (state_at d o prices h)).
Proof.
  intros H. unfold loop_after. cbn [storage].
  apply (nth_error_map_seq (fun k => h_storage (state_at d o prices k))). lia.
Qed.

Lemma nth_error_eq_Some {A : Type} (l : list A) (h : nat) (a b : A) :
  nth_error l h = Some a -> nth_error l h = Some b -> a = b.
Proof. intros Ha Hb. rewrite Ha in Hb. apply Some_inj. exact Hb. Qed.

(** C2: whatever the inputs, the storage level starts at 5 and after each
    of the 24 hours lies in [0, 5]; in an hour it either stays as it was or
    goes down by [min(2, s)]. *)
Theorem storage_level_in_range (g : rng_state) (d o : Qc) (h : nat) :
  (h < 24)%nat ->
  exists st s s',
    simulate_loop g d o = Some st /\
    nth_error (storage st) 0 = Some 5%Z /\
    nth_error (storage st) h = Some s /\
    nth_error (storage st) (S h) = Some s' /\
    (0 <= s' <= 5)%Z /\
    (s' = s \/ s' = (s - Z.min 2 s)%Z).
Proof.
  intros Hh. destruct (engine_run g d o) as (L & _ & E & _).
  set (prices := with_surcharge (fst (base_prices g))) in *.
  exists (loop_after d o prices 24),
    (h_storage (state_at d o prices h)),
    (h_storage (state_at d o prices (S h))).
  split; [exact E|].
  split; [apply (loop_after_storage d o prices 24 0); lia|].
  split; [apply loop_after_storage; lia|].
  split; [apply loop_after_storage; lia|].
  split; [apply storage_range|apply storage_step].
Qed.

(** C3: in every hour the power taken from the grid is 0 or exactly 2, and
    the power taken from the storage lies in [0, 2] and is at most the
    storage level the hour started with. *)
Theorem emitted_power_in_range (g : rng_state) (d o : Qc) (h : nat) :
  (h < 24)%nat ->
  exists st r rec s,
    simulate_loop g d o = Some st /\
    fst (simulate g d o) = Some r /\
    row (df r) h = Some rec /\
    nth_error (storage st) h = Some s /\
    (grid_heating_kw rec = 0%Z \/ grid_heating_kw rec = 2%Z) /\
    (0 <= pcm_use_kw rec <= 2)%Z /\
    (pcm_use_kw rec <= s)%Z.
Proof.
  intros Hh. destruct (engine_run g d o) as (L & _ & E & R).
  set (prices := with_surcharge (fst (base_prices g))) in *.
  rewrite (simulate_prices_result d o prices L) in R.
  destruct (nth_error prices h) as [p|] eqn:Hp;
    [|apply nth_error_None in Hp; lia].
  eexists _, _, _, _.
  split; [exact E|]. split; [exact R|].
  split.
  { apply (result_row d o prices _ h p L); try assumption.
    apply simulate_prices_result. exact L. }
  split; [apply loop_after_storage; lia|].
  cbn [grid_heating_kw pcm_use_kw].
  pose proof (storage_range d o prices h) as S.
  pose proof (hour_use_range d (state_at d o prices h) (proj1 S)) as U.
  split; [|exact U].
  destruct (hour_use_cases d (state_at d o prices h))
    as [(_ & _ & _ & ->)|[(_ & _ & _ & ->)|(_ & _ & ->)]]; auto.
Qed.

(** C9: in every hour at most one heating source is active: the power
    taken from the grid and the power taken from the storage are never both
    nonzero. *)
Theorem one_heating_source_at_most (g : rng_state) (d o : Qc) (h : nat) :
  (h < 24)%nat ->
  exists r rec,
    fst (simulate g d o) = Some r /\
    row (df r) h = Some rec /\
    (grid_heating_kw rec * pcm_use_kw rec = 0)%Z /\
    (grid_heating_kw rec = 0%Z \/ pcm_use_kw rec = 0%Z).
Proof.
  intros Hh. destruct (engine_run g d o) as (L & _ & _ & R).
  set (prices := with_surcharge (fst (base_prices g))) in *.
  rewrite (simulate_prices_result d o prices L) in R.
  destruct (nth_error prices h) as [p|] eqn:Hp;
    [|apply nth_error_None in Hp; lia].
  eexists _, _.
  split; [exact R|].
  split.
  { apply (result_row d o prices _ h p L); try assumption.
    apply simulate_prices_result. exact L. }
  cbn [grid_heating_kw pcm_use_kw].
  destruct (hour_use_cases d (state_at d o prices h))
    as [(_ & _ & _ & ->)|[(_ & _ & -> & _)|(_ & -> & _)]];
    split; auto; lia.
Qed.

(** C10: the unrounded temperature at the start of every hour is at least
    the outdoor temperature. *)
Theorem temperature_never_below_outdoor (g : rng_state) (d o : Qc)
    (h : nat) :
  (h < 24)%nat ->
  exists st t,
    simulate_loop g d o = Some st /\
    nth_error (temps st) h = Some t /\
    o <= t.
Proof.
  intros Hh. destruct (engine_run g d o) as (_ & _ & E & _).
  set (prices := with_surcharge (fst (base_prices g))) in *.
  exists (loop_after d o prices 24), (h_temp (state_at d o prices h)).
  split; [exact E|].
  split; [apply loop_after_temps; lia|apply temp_above_outdoor].
Qed.


(** C7: the engine is a function of its two inputs alone: whatever state
    the generator is found in, the price series, the result and the state
    the generator is left in are the same; so a second call, which finds the
    generator as the first left it, returns what the first returned. *)
Theorem simulate_deterministic (g1 g2 : rng_state) (d o : Qc) :
  make_prices g1 = make_prices g2 /\
  simulate g1 d o = simulate g2 d o /\
  fst (simulate (snd (simulate g1 d o)) d o) = fst (simulate g1 d o).
Proof. repeat split; reflexivity. Qed.

(** C8: once the storage level is 0 at some hour it is 0 at every later
    hour of the run, and every such hour that starts below the desired
    temperature takes 2 from the grid and nothing from the storage. *)
Theorem empty_storage_stays_empty (g : rng_state) (d o : Qc)
    (st : loop_state) (k j : nat) :
  simulate_loop g d o = Some st ->
  nth_error (storage st) k = Some 0%Z ->
  (k <= j < 24)%nat ->
  nth_error (storage st) j = Some 0%Z /\
  nth_error (storage st) (S j) = Some 0%Z /\
  exists r rec t,
    fst (simulate g d o) = Some r /\
    row (df r) j = Some rec /\
    nth_error (temps st) j = Some t /\
    (t < d -> grid_heating_kw rec = 2%Z /\ pcm_use_kw rec = 0%Z).
Proof.
  intros E K Hj. destruct (engine_run g d o) as (L & _ & E' & R).
  set (prices := with_surcharge (fst (base_prices g))) in *.
  rewrite E in E'. apply Some_inj in E'. subst st.
  set (x := state_at d o prices).
  rewrite loop_after_storage in K by lia. apply Some_inj in K.
  assert (Z0 : forall m, (k <= m)%nat -> h_storage (x m) = 0%Z)
    by (intros m Hm; apply (storage_stays_empty d o prices k m Hm K)).
  rewrite !loop_after_storage by lia.
  rewrite !Z0 by lia. split; [reflexivity|]. split; [reflexivity|].
  rewrite (simulate_prices_result d o prices L) in R.
  destruct (nth_error prices j) as [p|] eqn:Hp;
    [|apply nth_error_None in Hp; lia].
  eexists _, _, (h_temp (x j)).
  split; [exact R|].
  split.
  { apply (result_row d o prices _ j p L); try assumption; [|lia].
    apply simulate_prices_result. exact L. }
  split; [apply loop_after_temps; lia|].
  intros T. cbn [grid_heating_kw pcm_use_kw]. fold x.
  specialize (Z0 j ltac:(lia)).
  destruct (hour_use_cases d (x j))
    as [(_ & S & _ & _)|[(_ & _ & -> & ->)|(T' & _ & _)]];
    [lia|auto|].
  apply Qcle_not_lt in T'. contradiction.
Qed.

Hypothesis random_sample_unit :
  forall g, Py.of_int 0 <= fst (random_sample g) /\
            fst (random_sample g) < Py.of_int 1.

(** C6: the price series has exactly 24 elements; each base price is a
    draw of the generator seeded with 0, scaled from [0, 1) into
    [0.15, 0.25): the base price of hour [h] is [0.15 + (0.25 - 0.15) * u]
    for the [h]-th draw [u]; 0.15 is added exactly at the hours 7, 8, 17, 18
    and 19, and so every price lies in [0.15, 0.40]. *)
Theorem price_series_shape (g : rng_state) :
  exists us base prices,
    draws rng_state random_sample 24 (seed 0) = (us, snd (base_prices g)) /\
    length us = 24%nat /\
    (forall u, In u us -> Py.of_int 0 <= u /\ u < Py.of_int 1) /\
    fst (base_prices g) = base /\
    base =
    map (fun u => Py.lit 15 100 + (Py.lit 25 100 - Py.lit 15 100) * u) us /\
    fst (make_prices g) = Some prices /\
    length base = 24%nat /\
    length prices = 24%nat /\
    (forall b, In b base -> Py.lit 15 100 <= b /\ b < Py.lit 25 100) /\
    (forall h, (h < 24)%nat ->
       exists b, nth_error base h = Some b /\
         (In h [7; 8; 17; 18; 19]%nat ->
          nth_error prices h = Some (b + Py.lit 15 100)) /\
         (~ In h [7; 8; 17; 18; 19]%nat -> nth_error prices h = Some b)) /\
    (forall p, In p prices -> Py.lit 15 100 <= p /\ p <= Py.lit 40 100).
Proof.
  destruct (engine_run g (Py.of_int 0) (Py.of_int 0)) as (L & P & _ & _).
  pose proof (base_prices_length rng_state seed random_sample g) as LB.
  pose proof (uniform_draws rng_state random_sample
                (Py.lit 15 100) (Py.lit 25 100) 24 (seed 0)) as UD.
  pose proof (draws_length rng_state random_sample 24 (seed 0)) as LD.
  pose proof (draws_range rng_state random_sample random_sample_unit
                24 (seed 0)) as RD.
  change (uniform rng_state random_sample (Py.lit 15 100) (Py.lit 25 100)
            24 (seed 0)) with (base_prices g) in UD.
  set (base := fst (base_prices g)) in *.
  exists (fst (draws rng_state random_sample 24 (seed 0))), base,
    (with_surcharge base).
  split.
  { rewrite UD. cbn [snd].
    destruct (draws rng_state random_sample 24 (seed 0)); reflexivity. }
  split; [exact LD|]. split; [exact RD|].
  split; [reflexivity|].
  split; [unfold base; rewrite UD; reflexivity|].
  split; [exact P|]. split; [exact LB|].
  split; [exact L|].
  split; [apply base_prices_range; exact random_sample_unit|].
  split; [|apply prices_range; exact random_sample_unit].
  intros h Hh.
  destruct (nth_error base h) as [b|] eqn:Hb;
    [|apply nth_error_None in Hb; lia].
  exists b. split; [reflexivity|].
  rewrite (with_surcharge_nth base h b Hb). unfold surcharged, is_peak.
  destruct (existsb (Nat.eqb h) peak_hours) eqn:X.
  - split; [reflexivity|]. intros N. exfalso. apply N.
    apply existsb_exists in X. destruct X as (y & I & Y).
    apply Nat.eqb_eq in Y. subst y. exact I.
  - split; [|reflexivity]. intros I. exfalso.
    assert (X' : existsb (Nat.eqb h) peak_hours = true)
      by (apply existsb_exists; exists h; split;
          [exact I|apply Nat.eqb_refl]).
    congruence.
Qed.

(** C4: the total cost is never negative; and when the desired temperature
    is at most the outdoor temperature, no hour heats (nothing is taken
    from the storage or the grid, and the temperature stays where it is),
    so the total cost is 0. *)
Theorem total_cost_sign (g : rng_state) (d o : Qc) :
  exists st r,
    simulate_loop g d o = Some st /\
    fst (simulate g d o) = Some r /\
    Py.of_int 0 <= total_cost r /\
    (d <= o ->
     total_cost r = Py.of_int 0 /\
     forall h, (h < 24)%nat ->
       exists rec,
         row (df r) h = Some rec /\
         grid_heating_kw rec = 0%Z /\ pcm_use_kw rec = 0%Z /\
         nth_error (temps st) h = Some o /\
         nth_error (temps st) (S h) = Some o).
Proof.
  destruct (engine_run g d o) as (L & _ & E & R).
  set (prices := with_surcharge (fst (base_prices g))) in *.
  rewrite (simulate_prices_result d o prices L) in R.
  eexists _, _. split; [exact E|]. split; [exact R|].
  cbn [total_cost]. split.
  { apply round_nonneg, cost_nonneg. intros p I.
    apply (prices_range rng_state seed random_sample random_sample_unit g)
      in I.
    destruct I as [I _]. clear - I. qc2q. lra. }
  intros Hd. split.
  { destruct (no_demand d o prices 24 Hd) as (_ & _ & -> & _).
    apply round_zero. }
  intros h Hh.
  destruct (nth_error prices h) as [p|] eqn:Hp;
    [|apply nth_error_None in Hp; lia].
  eexists. split.
  { apply (result_row d o prices _ h p L); try assumption.
    apply simulate_prices_result. exact L. }
  cbn [grid_heating_kw pcm_use_kw].
  destruct (no_demand d o prices h Hd) as (Ht & _ & _ & -> & ->).
  destruct (no_demand d o prices (S h) Hd) as (Ht' & _).
  rewrite !loop_after_temps by lia. rewrite Ht, Ht'. auto.
Qed.

End Run.

(** ** More facts about the hourly states *)

Lemma sum_snoc (l : list Z) (a : Z) : Py.sum (l ++ [a]) = (Py.sum l + a)%Z.
Proof. unfold Py.sum. rewrite fold_left_app. reflexivity. Qed.

Lemma nonzero_snoc (l : list Z) (a : Z) :
  nonzero (l ++ [a]) = nonzero l ++ (if (a =? 0)%Z then [] else [a]).
Proof.
  unfold nonzero. rewrite filter_app. cbn [filter].
  destruct (a =? 0)%Z; reflexivity.
Qed.

Lemma of_int_add (a b : Z) : Py.of_int (a + b) = Py.of_int a + Py.of_int b.
Proof.
  unfold Py.of_int. apply Qc_is_canon. unfold Qcplus. cbn [this Q2Qc].
  rewrite !Qred_correct, inject_Z_plus. reflexivity.
Qed.

Lemma of_int_le (a b : Z) : (a <= b)%Z -> Py.of_int a <= Py.of_int b.
Proof.
  intros H. unfold Py.of_int, Qcle. cbn [this Q2Qc].
  rewrite !Qred_correct. rewrite <- Zle_Qle. exact H.
Qed.

Section MoreHours.

Variables (d o : Qc) (prices : list Qc).

Let x := state_at d o prices.

Let uses (n : nat) : list Z := map (fun k => hour_use d (x k)) (seq 0 n).

Let grids (n : nat) : list Z := map (fun k => hour_grid d (x k)) (seq 0 n).

Lemma storage_monotone (n m : nat) :
  (n <= m)%nat -> (h_storage (x m) <= h_storage (x n))%Z.
Proof.
  intros H. induction H as [|m H IH]; [lia|].
  unfold x in *. cbn [state_at]. rewrite hour_next_storage.
  pose proof (storage_range d o prices m) as S.
  pose proof (hour_use_range d (state_at d o prices m) (proj1 S)). lia.
Qed.

Lemma storage_conserved (n : nat) :
  (h_storage (x n) + Py.sum (uses n) = 5)%Z.
Proof.
  induction n as [|n IH]; [reflexivity|].
  unfold uses in *. rewrite map_seq_S, sum_snoc.
  unfold x in *. cbn [state_at]. rewrite hour_next_storage. lia.
Qed.

Lemma discharge_pattern (n : nat) :
  (h_storage (x n) = 5%Z /\ nonzero (uses n) = []) \/
  (h_storage (x n) = 3%Z /\ nonzero (uses n) = [2%Z]) \/
  (h_storage (x n) = 1%Z /\ nonzero (uses n) = [2; 2]%Z) \/
  (h_storage (x n) = 0%Z /\ nonzero (uses n) = [2; 2; 1]%Z).
Proof.
  induction n as [|n IH]; [left; split; reflexivity|].
  unfold uses in *. rewrite map_seq_S, nonzero_snoc.
  unfold x in *. cbn [state_at]. rewrite hour_next_storage.
  assert (U : hour_use d (state_at d o prices n) = 0%Z \/
              ((0 < h_storage (state_at d o prices n))%Z /\
               hour_use d (state_at d o prices n)
               = Z.min 2 (h_storage (state_at d o prices n)))).
  { destruct (hour_use_cases d (state_at d o prices n))
      as [(_ & P & E & _)|[(_ & _ & E & _)|(_ & E & _)]]; auto. }
  set (s := h_storage (state_at d o prices n)) in *.
  set (u := hour_use d (state_at d o prices n)) in *.
  set (l := nonzero _) in *. clearbody s u l.
  destruct U as [->|[P ->]].
  - cbn [Z.eqb]. rewrite app_nil_r, Z.sub_0_r. exact IH.
  - destruct IH as [[-> ->]|[[-> ->]|[[-> ->]|[-> ->]]]]; [| | |lia].
    + right; left. split; reflexivity.
    + right; right; left. split; reflexivity.
    + right; right; right. split; reflexivity.
Qed.

Lemma grid_needs_empty_storage (n : nat) :
  (hour_grid d (x n) = 2%Z <-> h_temp (x n) < d /\ h_storage (x n) = 0%Z) /\
  ((0 < hour_use d (x n))%Z <-> h_temp (x n) < d /\ (0 < h_storage (x n))%Z) /\
  (h_temp (x n) < d -> (1 <= hour_use d (x n) + hour_grid d (x n) <= 2)%Z) /\
  (d <= h_temp (x n) -> hour_use d (x n) = 0%Z /\ hour_grid d (x n) = 0%Z).
Proof.
  pose proof (storage_range d o prices n) as S. fold x in S.
  destruct (hour_use_cases d (x n))
    as [(T & P & -> & ->)|[(T & P & -> & ->)|(T & -> & ->)]].
  - assert (N : ~ d <= h_temp (x n)) by (apply Qclt_not_le; exact T).
    intuition lia.
  - assert (N : ~ d <= h_temp (x n)) by (apply Qclt_not_le; exact T).
    intuition lia.
  - assert (N : ~ h_temp (x n) < d) by (apply Qcle_not_lt; exact T).
    intuition lia.
Qed.

Lemma cost_is_grid_energy (n : nat) :
  h_cost (x n) =
  sum_upto
    (fun h => Py.of_int (hour_grid d (x h)) * nth h prices (Py.of_int 0)) n.
Proof.
  induction n as [|n IH]; [reflexivity|].
  cbn [sum_upto]. rewrite <- IH.
  unfold x. cbn [state_at]. unfold hour_next, hour_grid, dt. cbn [h_cost].
  fold x.
  destruct (Py.ltb (h_temp (x n)) d); cbn [andb];
    [destruct (0 <? h_storage (x n))%Z; cbn [negb]|];
    change (Py.of_int 0) with 0; change (Py.of_int 1) with 1; ring.
Qed.

End MoreHours.

Lemma schedule_ignores_prices (d o : Qc) (prices1 prices2 : list Qc)
    (n : nat) :
  h_temp (state_at d o prices1 n) = h_temp (state_at d o prices2 n) /\
  h_storage (state_at d o prices1 n) = h_storage (state_at d o prices2 n).
Proof.
  induction n as [|n [T S]]; [split; reflexivity|].
  cbn [state_at]. unfold hour_next, hour_use, hour_grid. cbn [h_temp h_storage].
  rewrite T, S. split; reflexivity.
Qed.

(** ** More facts about rounding *)

Lemma of_int_le_inv (a b : Z) : Py.of_int a <= Py.of_int b -> (a <= b)%Z.
Proof.
  unfold Py.of_int, Qcle. cbn [this Q2Qc].
  rewrite !Qred_correct. rewrite <- Zle_Qle. auto.
Qed.

Lemma of_int_lt_inv (a b : Z) : Py.of_int a < Py.of_int b -> (a < b)%Z.
Proof.
  unfold Py.of_int, Qclt. cbn [this Q2Qc].
  rewrite !Qred_correct. rewrite <- Zlt_Qlt. auto.
Qed.

Lemma floor_bounds (y : Qc) :
  Py.of_int (Qfloor y) <= y /\ y < Py.of_int (Qfloor y) + Py.of_int 1.
Proof.
  pose proof (Qfloor_le y) as L. pose proof (Qlt_floor y) as U.
  rewrite inject_Z_plus in U. split.
  - unfold Qcle, Py.of_int. cbn [this Q2Qc]. rewrite Qred_correct. exact L.
  - unfold Qclt, Qcplus, Py.of_int. cbn [this Q2Qc].
    rewrite !Qred_correct. exact U.
Qed.

(** [rint] picks the floor or the floor plus one, whichever is nearer. *)
Lemma rint_cases (y : Qc) :
  (Py.rint y = Qfloor y /\ y - Py.of_int (Qfloor y) <= Py.lit 1 2) \/
  (Py.rint y = (Qfloor y + 1)%Z /\ Py.lit 1 2 <= y - Py.of_int (Qfloor y)).
Proof.
  unfold Py.rint.
  destruct (Qccompare (y - Py.of_int (Qfloor y)) (Py.lit 1 2)) eqn:C.
  - apply Qceq_alt in C. rewrite C.
    destruct (Z.even (Qfloor y)); [left|right]; split;
      try reflexivity; apply Qcle_refl.
  - apply Qclt_alt in C. left. split; [reflexivity|].
    apply Qclt_le_weak. exact C.
  - apply Qcgt_alt in C. right. split; [reflexivity|].
    apply Qclt_le_weak. exact C.
Qed.

Lemma rint_le_int (y : Qc) (b : Z) :
  y <= Py.of_int b -> (Py.rint y <= b)%Z.
Proof.
  intros B. destruct (floor_bounds y) as [L U].
  destruct (rint_cases y) as [[-> C]|[-> C]].
  - apply of_int_le_inv. apply (Qcle_trans _ y); assumption.
  - assert (S : Py.of_int (Qfloor y) < Py.of_int b).
    { set (f := Py.of_int (Qfloor y)) in *.
      set (q := Py.of_int b) in *. clearbody f q. qc2q. lra. }
    apply of_int_lt_inv in S. lia.
Qed.

Lemma rint_ge_int (y : Qc) (a : Z) :
  Py.of_int a <= y -> (a <= Py.rint y)%Z.
Proof.
  intros A. destruct (floor_bounds y) as [L U].
  assert (S : Py.of_int a < Py.of_int (Qfloor y + 1)).
  { rewrite of_int_add.
    set (f := Py.of_int (Qfloor y)) in *.
    set (q := Py.of_int a) in *. clearbody f q. qc2q. lra. }
  apply of_int_lt_inv in S.
  destruct (rint_cases y) as [[-> C]|[-> C]]; lia.
Qed.

Lemma div_pow10_le (a b : Qc) (nd : nat) :
  a <= b -> a / Py.pow10 nd <= b / Py.pow10 nd.
Proof.
  intros H. unfold Qcdiv. apply Qcmult_le_compat_r; [exact H|].
  pose proof (pow10_pos nd) as P. apply Qclt_le_weak.
  change (Py.of_int 0) with 0 in P.
  unfold Qclt, Qcinv in *. cbn [this Q2Qc] in *.
  rewrite !Qred_correct in *. apply Qinv_lt_0_compat. exact P.
Qed.

(** Rounding keeps a number between two bounds that are themselves whole
    multiples of the last decimal place. *)
Lemma round_between (x : Qc) (nd : nat) (a b : Z) :
  Py.of_int a <= x * Py.pow10 nd -> x * Py.pow10 nd <= Py.of_int b ->
  Py.of_int a / Py.pow10 nd <= Py.round x nd /\
  Py.round x nd <= Py.of_int b / Py.pow10 nd.
Proof.
  intros A B. unfold Py.round. split; apply div_pow10_le, of_int_le.
  - apply rint_ge_int. exact A.
  - apply rint_le_int. exact B.
Qed.

(** ** How much the run draws from the storage and the grid *)

Section Totals.

Variables (d o : Qc) (prices : list Qc).

Let x := state_at d o prices.

Let uses (n : nat) : list Z := map (fun k => hour_use d (x k)) (seq 0 n).

Let grids (n : nat) : list Z := map (fun k => hour_grid d (x k)) (seq 0 n).

Lemma storage_use_total (n : nat) : In (Py.sum (uses n)) [0; 2; 4; 5]%Z.
Proof.
  pose proof (storage_conserved d o prices n) as C.
  destruct (discharge_pattern d o prices n)
    as [[E _]|[[E _]|[[E _]|[E _]]]];
    rewrite E in C; fold x in C; cbn [In]; unfold uses; lia.
Qed.

Lemma grid_total (n : nat) :
  (0 <= Py.sum (grids n))%Z /\
  ((0 < h_storage (x n))%Z -> Py.sum (grids n) = 0%Z) /\
  (Py.sum (grids n) + 2 * Z.of_nat (length (nonzero (uses n)))
   <= 2 * Z.of_nat n)%Z.
Proof.
  induction n as [|n (G0 & GS & GL)];
    [cbn; repeat split; intros; lia|].
  unfold grids, uses in *.
  rewrite !map_seq_S, sum_snoc, nonzero_snoc, length_app.
  unfold x in *. cbn [state_at]. rewrite hour_next_storage.
  pose proof (storage_range d o prices n) as S.
  destruct (hour_use_cases d (state_at d o prices n))
    as [(_ & P & -> & ->)|[(_ & P & -> & ->)|(_ & -> & ->)]].
  - destruct (Z.eqb_spec (Z.min 2 (h_storage (state_at d o prices n))) 0);
      [lia|]. cbn [length]. repeat split; intros; lia.
  - cbn [Z.eqb length]. repeat split; intros; lia.
  - cbn [Z.eqb length]. repeat split; intros; lia.
Qed.

Lemma grid_total_bound : (0 <= Py.sum (grids 24) <= 42)%Z.
Proof.
  destruct (grid_total 24) as (G0 & GS & GL). split; [exact G0|].
  destruct (discharge_pattern d o prices 24)
    as [[E _]|[[E _]|[[E _]|[E L]]]]; fold x in E.
  - rewrite GS by lia. lia.
  - rewrite GS by lia. lia.
  - rewrite GS by lia. lia.
  - fold x in L. fold uses in L. unfold uses in GL. fold x in GL.
    unfold uses in L. rewrite L in GL. cbn [length] in GL. lia.
Qed.

Lemma cost_bound (n : nat) :
  (forall p, In p prices -> p <= Py.lit 40 100) ->
  h_cost (x n) <= Py.lit 40 100 * Py.of_int (Py.sum (grids n)).
Proof.
  intros Hp. induction n as [|n IH].
  { cbn. change (Py.of_int 0) with 0. unfold Qcle. cbn. discriminate. }
  unfold grids in *. rewrite map_seq_S, sum_snoc, of_int_add.
  assert (P : nth n prices (Py.of_int 0) <= Py.lit 40 100).
  { destruct (nth_in_or_default n prices (Py.of_int 0)) as [I|E];
      [apply Hp; exact I|rewrite E; unfold Qcle; cbn; discriminate]. }
  unfold x in *. cbn [state_at]. unfold hour_next, hour_grid, dt. cbn [h_cost].
  set (c := h_cost (state_at d o prices n)) in *.
  set (p := nth n prices (Py.of_int 0)) in *.
  set (G := Py.of_int (Py.sum _)) in *. clearbody c p G.
  unfold power.
  destruct (Py.ltb _ d); cbn [andb];
    [destruct (0 <? _)%Z; cbn [negb]|]; qc2q; lra.
Qed.

End Totals.

Lemma round_le_1680 (c G : Qc) :
  c <= Py.lit 40 100 * G -> G <= Py.of_int 42 ->
  Py.round c 2 <= Py.lit 1680 100.
Proof.
  intros C H.
  replace (Py.lit 1680 100) with (Py.of_int 1680 / Py.pow10 2)
    by (apply Qc_is_canon; reflexivity).
  unfold Py.round. apply div_pow10_le, of_int_le, rint_le_int.
  change (Py.pow10 2) with (Py.of_int 100).
  qc2q. lra.
Qed.

Lemma rounded_cost_bound (d o : Qc) (prices : list Qc) :
  (forall p, In p prices -> p <= Py.lit 40 100) ->
  Py.round (h_cost (state_at d o prices 24)) 2 <= Py.lit 1680 100.
Proof.
  intros Hp.
  apply (round_le_1680 _ _ (cost_bound d o prices 24 Hp)).
  apply of_int_le. apply grid_total_bound.
Qed.

(** ** More properties of the engine *)

Lemma nth_map_seq {A : Type} (f : nat -> A) (n h : nat) (a : A) :
  (h < n)%nat -> nth h (map f (seq 0 n)) a = f h.
Proof.
  intros H. apply nth_error_nth. apply nth_error_map_seq. exact H.
Qed.

Lemma firstn_seq_le (s n m : nat) :
  (n <= m)%nat -> firstn n (seq s m) = seq s n.
Proof.
  revert s m. induction n as [|n IH]; intros s m H; [reflexivity|].
  destruct m as [|m]; [lia|]. cbn [seq firstn].
  rewrite IH by lia. reflexivity.
Qed.

Lemma firstn_map_seq {A : Type} (f : nat -> A) (n m : nat) :
  (n <= m)%nat -> firstn n (map f (seq 0 m)) = map f (seq 0 n).
Proof.
  intros H. rewrite firstn_map, firstn_seq_le by exact H. reflexivity.
Qed.

Lemma sum_upto_ext (f f' : nat -> Qc) (n : nat) :
  (forall k, (k < n)%nat -> f k = f' k) -> sum_upto f n = sum_upto f' n.
Proof.
  induction n as [|n IH]; intros E; [reflexivity|].
  cbn [sum_upto]. rewrite IH, E by (intros; try apply E; lia). reflexivity.
Qed.

Section MoreRun.

Variable rng_state : Type.
Variable seed : Z -> rng_state.
Variable random_sample : rng_state -> Qc * rng_state.

Local Abbreviation make_prices := (make_prices rng_state seed random_sample).
Local Abbreviation base_prices := (base_prices rng_state seed random_sample).
Local Abbreviation simulate_loop :=
  (simulate_loop rng_state seed random_sample).
Local Abbreviation simulate := (simulate rng_state seed random_sample).

(** The frame has exactly 24 rows: every column has 24 entries, the hours
    are 0 to 23 in order, row [h] is the row of hour [h], and there is no
    row 24 or later. *)
Theorem frame_has_24_rows (g : rng_state) (d o : Qc) :
  exists r,
    fst (simulate g d o) = Some r /\
    Hour (df r) = seq 0 24 /\
    length (Temperature (df r)) = 24%nat /\
    length (Grid_Heating (df r)) = 24%nat /\
    length (PCM_Use (df r)) = 24%nat /\
    length (Price (df r)) = 24%nat /\
    (forall h, (h < 24)%nat ->
       exists rec, row (df r) h = Some rec /\ hour rec = h) /\
    (forall h, (24 <= h)%nat -> row (df r) h = None).
Proof.
  destruct (engine_run rng_state seed random_sample g d o)
    as (L & _ & _ & R).
  set (prices := with_surcharge (fst (base_prices g))) in *.
  pose proof (simulate_prices_result d o prices L) as RR.
  cbv zeta in RR. rewrite RR in R.
  eexists. split; [exact R|].
  cbn [df Hour Temperature Grid_Heating PCM_Use Price].
  unfold Py.np_round. rewrite !length_map, !length_seq, L.
  repeat (split; [reflexivity|]). split.
  - intros h Hh.
    destruct (nth_error prices h) as [p|] eqn:Hp;
      [|apply nth_error_None in Hp; lia].
    eexists. split; [apply (result_row d o prices _ h p L RR Hh Hp)|].
    reflexivity.
  - intros h Hh. unfold row. cbn [df Hour].
    assert (N : nth_error (seq 0 24) h = None)
      by (apply nth_error_None; rewrite length_seq; exact Hh).
    rewrite N. reflexivity.
Qed.

(** The storage never recharges: its level at a later hour is at most its
    level at an earlier hour. *)
Theorem storage_never_recharges (g : rng_state) (d o : Qc) (i j : nat) :
  (i <= j <= 24)%nat ->
  exists st si sj,
    simulate_loop g d o = Some st /\
    nth_error (storage st) i = Some si /\
    nth_error (storage st) j = Some sj /\
    (sj <= si)%Z.
Proof.
  intros H. destruct (engine_run rng_state seed random_sample g d o)
    as (_ & _ & E & _).
  eexists _, _, _. split; [exact E|].
  split; [apply loop_after_storage; lia|].
  split; [apply loop_after_storage; lia|].
  apply storage_monotone. lia.
Qed.

(** Energy is conserved: at every hour the storage level plus everything
    drawn from the storage so far is the capacity 5. *)
Theorem storage_energy_conserved (g : rng_state) (d o : Qc) (n : nat) :
  (n <= 24)%nat ->
  exists st r s,
    simulate_loop g d o = Some st /\
    fst (simulate g d o) = Some r /\
    nth_error (storage st) n = Some s /\
    (s + Py.sum (firstn n (PCM_Use (df r))) = 5)%Z.
Proof.
  intros H. destruct (engine_run rng_state seed random_sample g d o)
    as (L & _ & E & R).
  set (prices := with_surcharge (fst (base_prices g))) in *.
  pose proof (simulate_prices_result d o prices L) as RR.
  cbv zeta in RR. rewrite RR in R.
  eexists _, _, _. split; [exact E|]. split; [exact R|].
  split; [apply loop_after_storage; lia|].
  cbn [df PCM_Use]. rewrite firstn_map_seq by exact H.
  apply storage_conserved.
Qed.

(** The storage has priority over the grid: an hour draws from the grid
    exactly when it starts below the desired temperature with the storage
    empty, and from the storage exactly when it starts below the desired
    temperature with the storage not empty; an hour that starts below the
    desired temperature always gets 1 or 2 of heat. *)
Theorem storage_before_grid (g : rng_state) (d o : Qc) (h : nat) :
  (h < 24)%nat ->
  exists st r rec t s,
    simulate_loop g d o = Some st /\
    fst (simulate g d o) = Some r /\
    row (df r) h = Some rec /\
    nth_error (temps st) h = Some t /\
    nth_error (storage st) h = Some s /\
    (grid_heating_kw rec = 2%Z <-> t < d /\ s = 0%Z) /\
    ((0 < pcm_use_kw rec)%Z <-> t < d /\ (0 < s)%Z) /\
    (t < d -> (1 <= pcm_use_kw rec + grid_heating_kw rec <= 2)%Z) /\
    (d <= t -> pcm_use_kw rec = 0%Z /\ grid_heating_kw rec = 0%Z).
Proof.
  intros Hh. destruct (engine_run rng_state seed random_sample g d o)
    as (L & _ & E & R).
  set (prices := with_surcharge (fst (base_prices g))) in *.
  pose proof (simulate_prices_result d o prices L) as RR.
  cbv zeta in RR. rewrite RR in R.
  destruct (nth_error prices h) as [p|] eqn:Hp;
    [|apply nth_error_None in Hp; lia].
  eexists _, _, _, _, _. split; [exact E|]. split; [exact R|].
  split; [apply (result_row d o prices _ h p L RR Hh Hp)|].
  split; [apply loop_after_temps; lia|].
  split; [apply loop_after_storage; lia|].
  cbn [grid_heating_kw pcm_use_kw].
  apply grid_needs_empty_storage.
Qed.

(** The storage is emptied in at most three draws of 2, 2 and 1: the
    nonzero entries of the PCM column are a prefix of [2, 2, 1], so the
    column sums to 0, 2, 4 or 5. *)
Theorem discharge_is_2_2_1 (g : rng_state) (d o : Qc) :
  exists r k,
    fst (simulate g d o) = Some r /\
    (k <= 3)%nat /\
    nonzero (PCM_Use (df r)) = firstn k [2; 2; 1]%Z /\
    In (Py.sum (PCM_Use (df r))) [0; 2; 4; 5]%Z.
Proof.
  destruct (engine_run rng_state seed random_sample g d o)
    as (L & _ & _ & R).
  set (prices := with_surcharge (fst (base_prices g))) in *.
  pose proof (simulate_prices_result d o prices L) as RR.
  cbv zeta in RR. rewrite RR in R.
  pose proof (storage_use_total d o prices 24) as T.
  destruct (discharge_pattern d o prices 24)
    as [[_ P]|[[_ P]|[[_ P]|[_ P]]]].
  - eexists _, 0%nat. split; [exact R|]. cbn [df PCM_Use].
    split; [lia|]. split; [exact P|exact T].
  - eexists _, 1%nat. split; [exact R|]. cbn [df PCM_Use].
    split; [lia|]. split; [exact P|exact T].
  - eexists _, 2%nat. split; [exact R|]. cbn [df PCM_Use].
    split; [lia|]. split; [exact P|exact T].
  - eexists _, 3%nat. split; [exact R|]. cbn [df PCM_Use].
    split; [lia|]. split; [exact P|exact T].
Qed.

(** The cost is the grid energy priced hour by hour: the accumulated cost
    is the sum over the 24 hours of [grid_heating_kw * price], with the
    unrounded prices, and [total_cost] is that sum rounded to 2 decimals. *)
Theorem total_cost_is_grid_energy (g : rng_state) (d o : Qc) :
  exists prices st r,
    fst (make_prices g) = Some prices /\
    simulate_loop g d o = Some st /\
    fst (simulate g d o) = Some r /\
    cost st = grid_energy_cost (grid st) prices 24 /\
    total_cost r =
    Py.round (grid_energy_cost (Grid_Heating (df r)) prices 24) 2.
Proof.
  destruct (engine_run rng_state seed random_sample g d o)
    as (L & P & E & R).
  set (prices := with_surcharge (fst (base_prices g))) in *.
  pose proof (simulate_prices_result d o prices L) as RR.
  cbv zeta in RR. rewrite RR in R.
  eexists _, _, _. split; [exact P|]. split; [exact E|].
  split; [exact R|].
  assert (C : h_cost (state_at d o prices 24) =
              grid_energy_cost
                (map (fun k => hour_grid d (state_at d o prices k))
                   (seq 0 24)) prices 24).
  { rewrite cost_is_grid_energy. unfold grid_energy_cost.
    apply sum_upto_ext. intros k Hk.
    rewrite (nth_map_seq (fun k => hour_grid d (state_at d o prices k))
               24 k 0%Z Hk).
    reflexivity. }
  split; [exact C|].
  cbn [total_cost df Grid_Heating]. rewrite C. reflexivity.
Qed.

(** The heating schedule does not look at the prices: with any two price
    series the loop builds the same temperatures, storage levels, grid
    draws and storage draws; only the cost differs. *)
Theorem schedule_ignores_price_series (d o : Qc)
    (prices1 prices2 : list Qc) :
  length prices1 = 24%nat -> length prices2 = 24%nat ->
  exists st1 st2,
    run_hours d o prices1 24 = Some st1 /\
    run_hours d o prices2 24 = Some st2 /\
    temps st1 = temps st2 /\ storage st1 = storage st2 /\
    grid st1 = grid st2 /\ pcm_use st1 = pcm_use st2.
Proof.
  intros L1 L2.
  exists (loop_after d o prices1 24), (loop_after d o prices2 24).
  split; [apply run_hours_trace; lia|].
  split; [apply run_hours_trace; lia|].
  unfold loop_after. cbn [temps storage grid pcm_use].
  split; [|split; [|split]]; apply map_ext; intros k;
    destruct (schedule_ignores_prices d o prices1 prices2 k) as [T S];
    unfold hour_grid, hour_use; rewrite ?T, ?S; reflexivity.
Qed.

End MoreRun.

Section MorePrices.

Variable rng_state : Type.
Variable seed : Z -> rng_state.
Variable random_sample : rng_state -> Qc * rng_state.

Local Abbreviation make_prices := (make_prices rng_state seed random_sample).
Local Abbreviation base_prices := (base_prices rng_state seed random_sample).
Local Abbreviation simulate_loop :=
  (simulate_loop rng_state seed random_sample).
Local Abbreviation simulate := (simulate rng_state seed random_sample).

Lemma summary_values (u : Z) :
  In u [0; 2; 4; 5]%Z ->
  let co2 := F64.round (F64.of_int u * 0.233)%float 2 in
  let trees := F64.round (co2 / F64.of_int 21)%float 2 in
  In (u, co2, trees)
     [(0%Z, 0%float, 0%float); (2%Z, 0.47%float, 0.02%float);
      (4%Z, 0.93%float, 0.04%float); (5%Z, 1.17%float, 0.06%float)].
Proof.
  intros [<-|[<-|[<-|[<-|[]]]]]; vm_compute; auto.
Qed.

(** C5: the summary numbers are exactly
    [co2_saved_kg = round(sum(pcm_use_kw) * 0.233, 2)], the sum running
    over the 24 emitted rows, and
    [trees_equivalent = round(co2_saved_kg / 21, 2)], both computed in
    binary64 as the program computes them; the sum and the two numbers are
    one of (0, 0.0, 0.0), (2, 0.47, 0.02), (4, 0.93, 0.04) and
    (5, 1.17, 0.06). *)
Theorem summary_metrics_exact (g : rng_state) (d o : Qc) :
  exists r,
    fst (simulate g d o) = Some r /\
    length (PCM_Use (df r)) = 24%nat /\
    co2_saved_kg r =
    F64.round (F64.of_int (Py.sum (PCM_Use (df r))) * 0.233)%float 2 /\
    trees_equivalent r =
    F64.round (co2_saved_kg r / F64.of_int 21)%float 2 /\
    In (Py.sum (PCM_Use (df r)), co2_saved_kg r, trees_equivalent r)
       [(0%Z, 0%float, 0%float); (2%Z, 0.47%float, 0.02%float);
        (4%Z, 0.93%float, 0.04%float); (5%Z, 1.17%float, 0.06%float)].
Proof.
  destruct (engine_run rng_state seed random_sample g d o)
    as (L & _ & _ & R).
  set (prices := with_surcharge (fst (base_prices g))) in *.
  pose proof (simulate_prices_result d o prices L) as RR.
  cbv zeta in RR. rewrite RR in R.
  eexists. split; [exact R|].
  cbn [df PCM_Use co2_saved_kg trees_equivalent].
  split; [rewrite length_map, length_seq; reflexivity|].
  split; [reflexivity|]. split; [reflexivity|].
  apply summary_values. apply storage_use_total.
Qed.

(** The storage credit is bounded: the CO2 saved is between 0 and 1.17 kg
    and the trees equivalent between 0 and 0.06, whatever the inputs. *)
Theorem co2_and_trees_bounded (g : rng_state) (d o : Qc) :
  exists r,
    fst (simulate g d o) = Some r /\
    (0 <=? co2_saved_kg r)%float = true /\
    (co2_saved_kg r <=? 1.17)%float = true /\
    (0 <=? trees_equivalent r)%float = true /\
    (trees_equivalent r <=? 0.06)%float = true.
Proof.
  destruct (engine_run rng_state seed random_sample g d o)
    as (L & _ & _ & R).
  set (prices := with_surcharge (fst (base_prices g))) in *.
  pose proof (simulate_prices_result d o prices L) as RR.
  cbv zeta in RR. rewrite RR in R.
  eexists. split; [exact R|].
  cbn [co2_saved_kg trees_equivalent].
  pose proof (summary_values _ (storage_use_total d o prices 24)) as V.
  cbv zeta in V.
  set (u := Py.sum _) in *.
  set (c := F64.round (F64.of_int u * 0.233)%float 2) in *.
  set (t := F64.round (c / F64.of_int 21)%float 2) in *.
  clearbody u c t.
  destruct V as [E|[E|[E|[E|[]]]]]; inversion E; subst;
    (split; [|split; [|split]]); reflexivity.
Qed.

Hypothesis random_sample_unit :
  forall g, Py.of_int 0 <= fst (random_sample g) /\
            fst (random_sample g) < Py.of_int 1.

Lemma price_at (g : rng_state) (h : nat) :
  (h < 24)%nat ->
  exists b,
    nth_error (fst (base_prices g)) h = Some b /\
    nth_error (with_surcharge (fst (base_prices g))) h
    = Some (surcharged h b) /\
    Py.lit 15 100 <= b /\ b < Py.lit 25 100.
Proof.
  intros Hh.
  pose proof (base_prices_length rng_state seed random_sample g) as LB.
  destruct (nth_error (fst (base_prices g)) h) as [b|] eqn:Hb;
    [|apply nth_error_None in Hb; lia].
  exists b. split; [reflexivity|].
  split; [apply with_surcharge_nth; exact Hb|].
  apply (base_prices_range rng_state seed random_sample
           random_sample_unit g).
  apply (nth_error_In _ _ Hb).
Qed.

Lemma is_peak_In (h : nat) : is_peak h = true <-> In h [7; 8; 17; 18; 19]%nat.
Proof.
  unfold is_peak. rewrite existsb_exists. split.
  - intros (y & I & E). apply Nat.eqb_eq in E. subst y. exact I.
  - intros I. exists h. split; [exact I|apply Nat.eqb_refl].
Qed.

(** Every peak-hour price is dearer than every off-peak price: a price at
    hour 7, 8, 17, 18 or 19 is at least 0.30, a price at any other hour is
    below 0.25. *)
Theorem peak_prices_dearer (g : rng_state) (h1 h2 : nat) :
  (h1 < 24)%nat -> (h2 < 24)%nat ->
  In h1 [7; 8; 17; 18; 19]%nat -> ~ In h2 [7; 8; 17; 18; 19]%nat ->
  exists prices p1 p2,
    fst (make_prices g) = Some prices /\
    nth_error prices h1 = Some p1 /\
    nth_error prices h2 = Some p2 /\
    Py.lit 30 100 <= p1 /\ p2 < Py.lit 25 100 /\ p2 < p1.
Proof.
  intros H1 H2 I1 I2.
  destruct (price_at g h1 H1) as (b1 & _ & P1 & B1 & _).
  destruct (price_at g h2 H2) as (b2 & _ & P2 & _ & B2).
  apply is_peak_In in I1.
  assert (N2 : is_peak h2 = false).
  { destruct (is_peak h2) eqn:E; [|reflexivity].
    apply is_peak_In in E. contradiction. }
  unfold surcharged in P1, P2. rewrite I1 in P1. rewrite N2 in P2.
  exists (with_surcharge (fst (base_prices g))), (b1 + Py.lit 15 100), b2.
  split; [apply make_prices_eq|].
  split; [exact P1|]. split; [exact P2|].
  clear - B1 B2. split; [|split]; qc2q; lra.
Qed.

(** The emitted price, rounded to 3 decimals, still lies in
    [0.15, 0.40]. *)
Theorem emitted_price_range (g : rng_state) (d o : Qc) (h : nat) :
  (h < 24)%nat ->
  exists r rec,
    fst (simulate g d o) = Some r /\
    row (df r) h = Some rec /\
    Py.lit 15 100 <= price rec /\ price rec <= Py.lit 40 100.
Proof.
  intros Hh. destruct (engine_run rng_state seed random_sample g d o)
    as (L & _ & _ & R).
  set (prices := with_surcharge (fst (base_prices g))) in *.
  pose proof (simulate_prices_result d o prices L) as RR.
  cbv zeta in RR. rewrite RR in R.
  destruct (nth_error prices h) as [p|] eqn:Hp;
    [|apply nth_error_None in Hp; lia].
  eexists _, _. split; [exact R|].
  split; [apply (result_row d o prices _ h p L RR Hh Hp)|].
  cbn [price].
  destruct (prices_range rng_state seed random_sample random_sample_unit
              g p (nth_error_In _ _ Hp)) as [A B].
  replace (Py.lit 15 100) with (Py.of_int 150 / Py.pow10 3)
    by (apply Qc_is_canon; reflexivity).
  replace (Py.lit 40 100) with (Py.of_int 400 / Py.pow10 3)
    by (apply Qc_is_canon; reflexivity).
  apply round_between; change (Py.pow10 3) with (Py.of_int 1000);
    clear - A B; qc2q; lra.
Qed.

(** The bill is bounded: the grid heats in at most 21 of the 24 hours, at
    2 kW and at most 0.40 per kWh, so the total cost is at most 16.80. *)
Theorem total_cost_bounded (g : rng_state) (d o : Qc) :
  exists r,
    fst (simulate g d o) = Some r /\
    (0 <= Py.sum (Grid_Heating (df r)) <= 42)%Z /\
    total_cost r <= Py.lit 1680 100.
Proof.
  destruct (engine_run rng_state seed random_sample g d o)
    as (L & _ & _ & R).
  set (prices := with_surcharge (fst (base_prices g))) in *.
  pose proof (simulate_prices_result d o prices L) as RR.
  cbv zeta in RR. rewrite RR in R.
  eexists. split; [exact R|].
  split; [apply grid_total_bound|].
  apply rounded_cost_bound. intros p I.
  apply (prices_range rng_state seed random_sample random_sample_unit g
           p I).
Qed.

End MorePrices.

(** ** The data routes *)

Lemma payload_layout (r : SimulationResult) :
  dict_update
    (map (fun kv => (fst kv, Column (snd kv))) (to_dict (df r)))
    [("Total Cost (EUR)"%string, Scalar (Float (total_cost r)));
     ("CO2 Saved (kg)"%string, Scalar (Float64 (co2_saved_kg r)));
     ("Trees Equivalent"%string, Scalar (Float64 (trees_equivalent r)))]
  = map (fun kv => (fst kv, Column (snd kv))) (to_dict (df r)) ++
    [("Total Cost (EUR)"%string, Scalar (Float (total_cost r)));
     ("CO2 Saved (kg)"%string, Scalar (Float64 (co2_saved_kg r)));
     ("Trees Equivalent"%string, Scalar (Float64 (trees_equivalent r)))].
Proof. reflexivity. Qed.

Lemma csv_layout (r : SimulationResult) (n : nat) :
  assign_scalar "Trees Equivalent"%string (Float64 (trees_equivalent r)) n
    (assign_scalar "CO2 Saved (kg)"%string (Float64 (co2_saved_kg r)) n
       (assign_scalar "Total Cost (EUR)"%string (Float (total_cost r)) n
          (to_dict (df r))))
  = to_dict (df r) ++
    [("Total Cost (EUR)"%string, repeat (Float (total_cost r)) n);
     ("CO2 Saved (kg)"%string, repeat (Float64 (co2_saved_kg r)) n);
     ("Trees Equivalent"%string, repeat (Float64 (trees_equivalent r)) n)].
Proof. reflexivity. Qed.

Lemma nth_error_repeat_lt {A : Type} (a : A) (n h : nat) :
  (h < n)%nat -> nth_error (repeat a n) h = Some a.
Proof.
  revert h. induction n as [|n IH]; intros h H; [lia|].
  destruct h as [|h]; [reflexivity|]. cbn. apply IH. lia.
Qed.

Section RouteFacts.

Variable rng_state : Type.
Variable seed : Z -> rng_state.
Variable random_sample : rng_state -> Qc * rng_state.

Lemma simulate_defaults_some (g : rng_state) :
  exists r,
    fst (simulate_defaults rng_state seed random_sample g) = Some r /\
    length (Hour (df r)) = 24%nat /\
    length (Temperature (df r)) = 24%nat /\
    length (Grid_Heating (df r)) = 24%nat /\
    length (PCM_Use (df r)) = 24%nat /\
    length (Price (df r)) = 24%nat /\
    Hour (df r) = seq 0 24.
Proof.
  unfold simulate_defaults.
  destruct (engine_run rng_state seed random_sample g
              (Py.of_int 22) (Py.of_int 5)) as (L & _ & _ & R).
  set (prices := with_surcharge _) in *.
  pose proof (simulate_prices_result (Py.of_int 22) (Py.of_int 5) prices L)
    as RR.
  cbv zeta in RR. rewrite RR in R.
  eexists. split; [exact R|].
  cbn [df Hour Temperature Grid_Heating PCM_Use Price].
  unfold Py.np_round. rewrite !length_map, !length_seq, L.
  split; [reflexivity|]. split; [reflexivity|]. split; [reflexivity|].
  split; [reflexivity|]. split; reflexivity.
Qed.

Lemma data_json_eq (g : rng_state) (r : SimulationResult) :
  fst (simulate_defaults rng_state seed random_sample g) = Some r ->
  fst (data_json rng_state seed random_sample g) =
  Some (map (fun kv => (fst kv, Column (snd kv))) (to_dict (df r)) ++
        [("Total Cost (EUR)"%string, Scalar (Float (total_cost r)));
         ("CO2 Saved (kg)"%string, Scalar (Float64 (co2_saved_kg r)));
         ("Trees Equivalent"%string,
          Scalar (Float64 (trees_equivalent r)))]).
Proof.
  intros R. unfold data_json.
  destruct (simulate_defaults rng_state seed random_sample g) as [res g']. cbn [fst] in *.
  rewrite R. rewrite payload_layout. reflexivity.
Qed.

Lemma data_csv_eq (g : rng_state) (r : SimulationResult) :
  fst (simulate_defaults rng_state seed random_sample g) = Some r ->
  fst (data_csv rng_state seed random_sample g) =
  Some (to_dict (df r) ++
        [("Total Cost (EUR)"%string,
          repeat (Float (total_cost r)) (length (Hour (df r))));
         ("CO2 Saved (kg)"%string,
          repeat (Float64 (co2_saved_kg r)) (length (Hour (df r))));
         ("Trees Equivalent"%string,
          repeat (Float64 (trees_equivalent r)) (length (Hour (df r))))]).
Proof.
  intros R. unfold data_csv.
  destruct (simulate_defaults rng_state seed random_sample g) as [res g']. cbn [fst] in *.
  rewrite R. cbv zeta. rewrite csv_layout. reflexivity.
Qed.

Local Abbreviation simulate_defaults :=
  (simulate_defaults rng_state seed random_sample).
Local Abbreviation data_json := (data_json rng_state seed random_sample).
Local Abbreviation data_csv := (data_csv rng_state seed random_sample).

(** The JSON payload has eight keys in this order: the five columns, then
    the three summary numbers, which the update adds without replacing a
    column; every array has 24 entries and the three scalars are the
    summary numbers [simulate()] returned. *)
Theorem json_payload_layout (g : rng_state) :
  exists r payload,
    fst (simulate_defaults g) = Some r /\
    fst (data_json g) = Some payload /\
    map fst payload =
    ["Hour"; "Temperature (C)"; "Grid Heating (kW)"; "PCM Use (kW)";
     "Price (EUR per kWh)"; "Total Cost (EUR)"; "CO2 Saved (kg)";
     "Trees Equivalent"]%string /\
    (forall k col, dict_get k payload = Some (Column col) ->
       length col = 24%nat) /\
    dict_get "PCM Use (kW)"%string payload
    = Some (Column (map Int (PCM_Use (df r)))) /\
    dict_get "Total Cost (EUR)"%string payload
    = Some (Scalar (Float (total_cost r))) /\
    dict_get "CO2 Saved (kg)"%string payload
    = Some (Scalar (Float64 (co2_saved_kg r))) /\
    dict_get "Trees Equivalent"%string payload
    = Some (Scalar (Float64 (trees_equivalent r))).
Proof.
  destruct (simulate_defaults_some g) as (r & R & LH & LT & LG & LU & LP & _).
  exists r. eexists. split; [exact R|].
  split; [apply data_json_eq; exact R|].
  split; [reflexivity|].
  split; [|repeat split; reflexivity].
  intros k col. unfold to_dict.
  cbn [map app fst snd dict_get].
  repeat (destruct (String.eqb k _);
          [intros E; inversion E; subst col;
           rewrite length_map; assumption|]).
  repeat (destruct (String.eqb k _); [discriminate|]).
  discriminate.
Qed.

(** The frame written as CSV has 24 rows and eight columns: row [h] holds
    the five values of hour [h] followed by the three summary numbers, the
    same in every row. *)
Theorem csv_frame_layout (g : rng_state) (h : nat) :
  (h < 24)%nat ->
  exists r cols rec,
    fst (simulate_defaults g) = Some r /\
    fst (data_csv g) = Some cols /\
    map fst cols =
    ["Hour"; "Temperature (C)"; "Grid Heating (kW)"; "PCM Use (kW)";
     "Price (EUR per kWh)"; "Total Cost (EUR)"; "CO2 Saved (kg)";
     "Trees Equivalent"]%string /\
    row (df r) h = Some rec /\
    frame_row cols h =
    [Some (Int (Z.of_nat h)); Some (Float (temperature rec));
     Some (Int (grid_heating_kw rec)); Some (Int (pcm_use_kw rec));
     Some (Float (price rec)); Some (Float (total_cost r));
     Some (Float64 (co2_saved_kg r)); Some (Float64 (trees_equivalent r))] /\
    frame_row cols 24 = repeat None 8.
Proof.
  intros Hh.
  destruct (simulate_defaults_some g) as (r & R & LH & LT & LG & LU & LP & HS).
  assert (N : forall {A : Type} (l : list A), length l = 24%nat ->
                exists a, nth_error l h = Some a).
  { intros A l E. destruct (nth_error l h) as [a|] eqn:X;
      [exists a; reflexivity|apply nth_error_None in X; lia]. }
  destruct (N _ _ LT) as (t & Ht). destruct (N _ _ LG) as (gh & Hg).
  destruct (N _ _ LU) as (u & Hu). destruct (N _ _ LP) as (p & Hp).
  assert (Hhr : nth_error (Hour (df r)) h = Some h).
  { rewrite HS, nth_error_seq.
    destruct (Nat.ltb_spec h 24); [reflexivity|lia]. }
  exists r. eexists. exists (mkRecord h t gh u p).
  split; [exact R|].
  split; [apply data_csv_eq; exact R|].
  split; [reflexivity|].
  split; [unfold row; rewrite Hhr, Ht, Hg, Hu, Hp; reflexivity|].
  unfold frame_row, to_dict. cbn [map app snd].
  rewrite !nth_error_map, Hhr, Ht, Hg, Hu, Hp, LH.
  rewrite !nth_error_repeat_lt by exact Hh.
  split; [reflexivity|].
  assert (M : forall {A : Type} (l : list A), length l = 24%nat ->
                nth_error l 24 = None)
    by (intros A l E; apply nth_error_None; lia).
  rewrite (M _ _ LH), (M _ _ LT), (M _ _ LG), (M _ _ LU), (M _ _ LP).
  rewrite (M _ (repeat (Float (total_cost r)) 24)),
    (M _ (repeat (Float64 (co2_saved_kg r)) 24)),
    (M _ (repeat (Float64 (trees_equivalent r)) 24))
    by apply repeat_length.
  reflexivity.
Qed.

(** The two downloads agree, whatever was served before them: the JSON
    arrays are the CSV columns, and each JSON summary number is the value
    its CSV column repeats on all 24 rows. *)
Theorem json_and_csv_agree (g1 g2 : rng_state) :
  exists columns x1 x2 x3,
    length columns = 5%nat /\
    fst (data_json g1) =
    Some (map (fun kv => (fst kv, Column (snd kv))) columns ++
          [("Total Cost (EUR)"%string, Scalar x1);
           ("CO2 Saved (kg)"%string, Scalar x2);
           ("Trees Equivalent"%string, Scalar x3)]) /\
    fst (data_csv g2) =
    Some (columns ++
          [("Total Cost (EUR)"%string, repeat x1 24);
           ("CO2 Saved (kg)"%string, repeat x2 24);
           ("Trees Equivalent"%string, repeat x3 24)]).
Proof.
  destruct (simulate_defaults_some g1) as (r & R & LH & _).
  assert (R2 : fst (simulate_defaults g2) = Some r) by exact R.
  exists (to_dict (df r)), (Float (total_cost r)),
    (Float64 (co2_saved_kg r)), (Float64 (trees_equivalent r)).
  split; [reflexivity|].
  split; [apply data_json_eq; exact R|].
  rewrite (data_csv_eq g2 r R2), LH. reflexivity.
Qed.

End RouteFacts.

(** ** Concrete runs

    The engine run on the concrete generator with the default arguments
    [desired_temp = 22], [outdoor_temp = 5], and with no heating demand
    ([desired_temp = outdoor_temp = 5]). *)

Example default_run_storage :
  option_map storage (simulate_loop_default 0%Z)
  = Some [5; 3; 1; 0; 0; 0; 0; 0; 0; 0; 0; 0; 0; 0; 0; 0; 0; 0; 0; 0; 0; 0;
          0; 0; 0]%Z.
Proof. vm_compute. reflexivity. Qed.

Example default_run_hour_0 :
  option_map
    (fun r =>
       option_map
         (fun rec => (hour rec, this (temperature rec),
                      grid_heating_kw rec, pcm_use_kw rec))
         (row (df r) 0))
    (fst (simulate_default 0%Z))
  = Some (Some (0%nat, 5 # 1, 0%Z, 2%Z)%Q).
Proof. vm_compute. reflexivity. Qed.

Example default_run_power :
  option_map (fun r => (Grid_Heating (df r), PCM_Use (df r)))
    (fst (simulate_default 0%Z))
  = Some ([0; 0; 0; 2; 2; 2; 2; 2; 2; 2; 2; 2; 2; 2; 2; 2; 2; 2; 2; 0; 0; 0;
           2; 0]%Z,
          [2; 2; 1; 0; 0; 0; 0; 0; 0; 0; 0; 0; 0; 0; 0; 0; 0; 0; 0; 0; 0; 0;
           0; 0]%Z).
Proof. vm_compute. reflexivity. Qed.

Example no_demand_run :
  option_map
    (fun r => (Grid_Heating (df r), PCM_Use (df r), this (total_cost r),
               co2_saved_kg r, trees_equivalent r))
    (fst (simulate Z Lcg.seed Lcg.random_sample 0%Z
            (Py.of_int 5) (Py.of_int 5)))
  = Some (repeat 0%Z 24, repeat 0%Z 24, 0%Q, 0%float, 0%float).
Proof. vm_compute. reflexivity. Qed.

Example default_run_summary :
  option_map (fun r => (co2_saved_kg r, trees_equivalent r))
    (fst (simulate_default 0%Z))
  = Some (1.17%float, 0.06%float).
Proof. vm_compute. reflexivity. Qed.

Example round_binary64 :
  map (fun x => F64.round x 2)
    [1.165; 0.015; 2.675; 0.125; 0.466; -0.001; 123456789012345.67]%float
  = [1.17; 0.01; 2.67; 0.12; 0.47; -0.0; 123456789012345.67]%float.
Proof. vm_compute. reflexivity. Qed.

Example round_half_to_even :
  map (fun x => this (Py.round x 2))
    [Py.lit 5 1000; Py.lit 15 1000; Py.lit 25 1000; Py.lit (-5) 1000;
     Py.lit 12349 10000; Py.lit 1165 1000]
  = [0; 1 # 50; 1 # 50; 0; 123 # 100; 29 # 25]%Q.
Proof. vm_compute. reflexivity. Qed.

(** ** The theorems at the default run *)


Lemma storage_level_in_range_witness :
  (2 < 24)%nat /\
  exists st s s',
    simulate_loop_default 0%Z = Some st /\
    nth_error (storage st) 0 = Some 5%Z /\
    nth_error (storage st) 2 = Some s /\
    nth_error (storage st) 3 = Some s' /\
    (0 <= s' <= 5)%Z /\
    (s' = s \/ s' = (s - Z.min 2 s)%Z).
Proof.
  split; [lia|].
  apply (storage_level_in_range Z Lcg.seed Lcg.random_sample 0%Z
           (Py.of_int 22) (Py.of_int 5) 2).
  lia.
Defined.

Lemma emitted_power_in_range_witness :
  (2 < 24)%nat /\
  exists st r rec s,
    simulate_loop_default 0%Z = Some st /\
    fst (simulate_default 0%Z) = Some r /\
    row (df r) 2 = Some rec /\
    nth_error (storage st) 2 = Some s /\
    (grid_heating_kw rec = 0%Z \/ grid_heating_kw rec = 2%Z) /\
    (0 <= pcm_use_kw rec <= 2)%Z /\
    (pcm_use_kw rec <= s)%Z.
Proof.
  split; [lia|].
  apply (emitted_power_in_range Z Lcg.seed Lcg.random_sample 0%Z
           (Py.of_int 22) (Py.of_int 5) 2).
  lia.
Defined.

Lemma one_heating_source_at_most_witness :
  (3 < 24)%nat /\
  exists r rec,
    fst (simulate_default 0%Z) = Some r /\
    row (df r) 3 = Some rec /\
    (grid_heating_kw rec * pcm_use_kw rec = 0)%Z /\
    (grid_heating_kw rec = 0%Z \/ pcm_use_kw rec = 0%Z).
Proof.
  split; [lia|].
  apply (one_heating_source_at_most Z Lcg.seed Lcg.random_sample 0%Z
           (Py.of_int 22) (Py.of_int 5) 3).
  lia.
Defined.

Lemma temperature_never_below_outdoor_witness :
  (23 < 24)%nat /\
  exists st t,
    simulate_loop_default 0%Z = Some st /\
    nth_error (temps st) 23 = Some t /\
    Py.of_int 5 <= t.
Proof.
  split; [lia|].
  apply (temperature_never_below_outdoor Z Lcg.seed Lcg.random_sample 0%Z
           (Py.of_int 22) (Py.of_int 5) 23).
  lia.
Defined.

Lemma empty_storage_stays_empty_witness :
  exists st,
    simulate_loop_default 0%Z = Some st /\
    nth_error (storage st) 3 = Some 0%Z /\
    (3 <= 22 < 24)%nat /\
    nth_error (storage st) 22 = Some 0%Z /\
    nth_error (storage st) 23 = Some 0%Z /\
    exists r rec t,
      fst (simulate_default 0%Z) = Some r /\
      row (df r) 22 = Some rec /\
      nth_error (temps st) 22 = Some t /\
      (t < Py.of_int 22 ->
       grid_heating_kw rec = 2%Z /\ pcm_use_kw rec = 0%Z).
Proof.
  unfold simulate_loop_default, simulate_default.
  set (st := loop_after (Py.of_int 22) (Py.of_int 5)
               (with_surcharge
                  (fst (base_prices Z Lcg.seed Lcg.random_sample 0%Z))) 24).
  assert (E : simulate_loop Z Lcg.seed Lcg.random_sample 0%Z
                (Py.of_int 22) (Py.of_int 5) = Some st)
    by (vm_compute; reflexivity).
  assert (K : nth_error (storage st) 3 = Some 0%Z)
    by (vm_compute; reflexivity).
  assert (J : (3 <= 22 < 24)%nat) by lia.
  exists st.
  split; [exact E|]. split; [exact K|]. split; [exact J|].
  exact (empty_storage_stays_empty Z Lcg.seed Lcg.random_sample 0%Z
           (Py.of_int 22) (Py.of_int 5) st 3 22 E K J).
Defined.

Lemma price_series_shape_witness :
  (forall g, Py.of_int 0 <= fst (Lcg.random_sample g) /\
             fst (Lcg.random_sample g) < Py.of_int 1) /\
  exists us base prices,
    draws Z Lcg.random_sample 24 (Lcg.seed 0)
    = (us, snd (base_prices Z Lcg.seed Lcg.random_sample 0%Z)) /\
    length us = 24%nat /\
    (forall u, In u us -> Py.of_int 0 <= u /\ u < Py.of_int 1) /\
    fst (base_prices Z Lcg.seed Lcg.random_sample 0%Z) = base /\
    base =
    map (fun u => Py.lit 15 100 + (Py.lit 25 100 - Py.lit 15 100) * u) us /\
    fst (make_prices_default 0%Z) = Some prices /\
    length base = 24%nat /\
    length prices = 24%nat /\
    (forall b, In b base -> Py.lit 15 100 <= b /\ b < Py.lit 25 100) /\
    (forall h, (h < 24)%nat ->
       exists b, nth_error base h = Some b /\
         (In h [7; 8; 17; 18; 19]%nat ->
          nth_error prices h = Some (b + Py.lit 15 100)) /\
         (~ In h [7; 8; 17; 18; 19]%nat -> nth_error prices h = Some b)) /\
    (forall p, In p prices -> Py.lit 15 100 <= p /\ p <= Py.lit 40 100).
Proof.
  split; [exact lcg_sample_unit|].
  exact (price_series_shape Z Lcg.seed Lcg.random_sample lcg_sample_unit
           0%Z).
Defined.

Lemma total_cost_sign_witness :
  (forall g, Py.of_int 0 <= fst (Lcg.random_sample g) /\
             fst (Lcg.random_sample g) < Py.of_int 1) /\
  Py.of_int 5 <= Py.of_int 5 /\
  exists st r,
    simulate_loop Z Lcg.seed Lcg.random_sample 0%Z
      (Py.of_int 5) (Py.of_int 5) = Some st /\
    fst (simulate Z Lcg.seed Lcg.random_sample 0%Z
           (Py.of_int 5) (Py.of_int 5)) = Some r /\
    Py.of_int 0 <= total_cost r /\
    total_cost r = Py.of_int 0 /\
    forall h, (h < 24)%nat ->
      exists rec,
        row (df r) h = Some rec /\
        grid_heating_kw rec = 0%Z /\ pcm_use_kw rec = 0%Z /\
        nth_error (temps st) h = Some (Py.of_int 5) /\
        nth_error (temps st) (S h) = Some (Py.of_int 5).
Proof.
  assert (H : Py.of_int 5 <= Py.of_int 5) by apply Qcle_refl.
  split; [exact lcg_sample_unit|]. split; [exact H|].
  destruct (total_cost_sign Z Lcg.seed Lcg.random_sample lcg_sample_unit
              0%Z (Py.of_int 5) (Py.of_int 5))
    as (st & r & E & R & N & I).
  destruct (I H) as [C A].
  exists st, r.
  split; [exact E|]. split; [exact R|]. split; [exact N|].
  split; [exact C|exact A].
Defined.

(** ** The further properties at the default run *)

Lemma storage_never_recharges_witness :
  (1 <= 5 <= 24)%nat /\
  exists st si sj,
    simulate_loop_default 0%Z = Some st /\
    nth_error (storage st) 1 = Some si /\
    nth_error (storage st) 5 = Some sj /\
    (sj <= si)%Z.
Proof.
  split; [lia|].
  apply (storage_never_recharges Z Lcg.seed Lcg.random_sample 0%Z
           (Py.of_int 22) (Py.of_int 5) 1 5).
  lia.
Defined.

Lemma storage_energy_conserved_witness :
  (2 <= 24)%nat /\
  exists st r s,
    simulate_loop_default 0%Z = Some st /\
    fst (simulate_default 0%Z) = Some r /\
    nth_error (storage st) 2 = Some s /\
    (s + Py.sum (firstn 2 (PCM_Use (df r))) = 5)%Z.
Proof.
  split; [lia|].
  apply (storage_energy_conserved Z Lcg.seed Lcg.random_sample 0%Z
           (Py.of_int 22) (Py.of_int 5) 2).
  lia.
Defined.

Lemma storage_before_grid_witness :
  (3 < 24)%nat /\
  exists st r rec t s,
    simulate_loop_default 0%Z = Some st /\
    fst (simulate_default 0%Z) = Some r /\
    row (df r) 3 = Some rec /\
    nth_error (temps st) 3 = Some t /\
    nth_error (storage st) 3 = Some s /\
    (grid_heating_kw rec = 2%Z <-> t < Py.of_int 22 /\ s = 0%Z) /\
    ((0 < pcm_use_kw rec)%Z <-> t < Py.of_int 22 /\ (0 < s)%Z) /\
    (t < Py.of_int 22 ->
     (1 <= pcm_use_kw rec + grid_heating_kw rec <= 2)%Z) /\
    (Py.of_int 22 <= t ->
     pcm_use_kw rec = 0%Z /\ grid_heating_kw rec = 0%Z).
Proof.
  split; [lia|].
  apply (storage_before_grid Z Lcg.seed Lcg.random_sample 0%Z
           (Py.of_int 22) (Py.of_int 5) 3).
  lia.
Defined.

Lemma schedule_ignores_price_series_witness :
  length (repeat (Py.lit 20 100) 24) = 24%nat /\
  length (repeat (Py.lit 30 100) 24) = 24%nat /\
  exists st1 st2,
    run_hours (Py.of_int 22) (Py.of_int 5) (repeat (Py.lit 20 100) 24) 24
    = Some st1 /\
    run_hours (Py.of_int 22) (Py.of_int 5) (repeat (Py.lit 30 100) 24) 24
    = Some st2 /\
    temps st1 = temps st2 /\ storage st1 = storage st2 /\
    grid st1 = grid st2 /\ pcm_use st1 = pcm_use st2.
Proof.
  split; [reflexivity|]. split; [reflexivity|].
  apply (schedule_ignores_price_series (Py.of_int 22) (Py.of_int 5)
           (repeat (Py.lit 20 100) 24) (repeat (Py.lit 30 100) 24));
    reflexivity.
Defined.

Lemma peak_prices_dearer_witness :
  exists prices p1 p2,
    fst (make_prices_default 0%Z) = Some prices /\
    nth_error prices 7 = Some p1 /\
    nth_error prices 3 = Some p2 /\
    Py.lit 30 100 <= p1 /\ p2 < Py.lit 25 100 /\ p2 < p1.
Proof.
  apply (peak_prices_dearer Z Lcg.seed Lcg.random_sample lcg_sample_unit
           0%Z 7 3).
  - lia.
  - lia.
  - cbn [In]. left. reflexivity.
  - cbn [In]. lia.
Defined.

Lemma emitted_price_range_witness :
  (7 < 24)%nat /\
  exists r rec,
    fst (simulate_default 0%Z) = Some r /\
    row (df r) 7 = Some rec /\
    Py.lit 15 100 <= price rec /\ price rec <= Py.lit 40 100.
Proof.
  split; [lia|].
  apply (emitted_price_range Z Lcg.seed Lcg.random_sample lcg_sample_unit
           0%Z (Py.of_int 22) (Py.of_int 5) 7).
  lia.
Defined.

Lemma total_cost_bounded_witness :
  exists r,
    fst (simulate_default 0%Z) = Some r /\
    (0 <= Py.sum (Grid_Heating (df r)) <= 42)%Z /\
    total_cost r <= Py.lit 1680 100.
Proof.
  exact (total_cost_bounded Z Lcg.seed Lcg.random_sample lcg_sample_unit
           0%Z (Py.of_int 22) (Py.of_int 5)).
Defined.

Lemma csv_frame_layout_witness :
  (3 < 24)%nat /\
  exists r cols rec,
    fst (simulate_default 0%Z) = Some r /\
    fst (data_csv Z Lcg.seed Lcg.random_sample 0%Z) = Some cols /\
    map fst cols =
    ["Hour"; "Temperature (C)"; "Grid Heating (kW)"; "PCM Use (kW)";
     "Price (EUR per kWh)"; "Total Cost (EUR)"; "CO2 Saved (kg)";
     "Trees Equivalent"]%string /\
    row (df r) 3 = Some rec /\
    frame_row cols 3 =
    [Some (Int 3); Some (Float (temperature rec));
     Some (Int (grid_heating_kw rec)); Some (Int (pcm_use_kw rec));
     Some (Float (price rec)); Some (Float (total_cost r));
     Some (Float64 (co2_saved_kg r)); Some (Float64 (trees_equivalent r))] /\
    frame_row cols 24 = repeat None 8.
Proof.
  split; [lia|].
  apply (csv_frame_layout Z Lcg.seed Lcg.random_sample 0%Z 3).
  lia.
Defined.
